(** * Issue creation from tasks.yaml: a shallow embedding of create_issues.py

    The development follows the script top to bottom: the text primitives
    and the fragment of Python's [re] that [parse_yaml_tasks] relies on, the
    extractor itself, the two formatters with their [gh] invocations, and
    [main].

    Conventions.  A Python [str] is a Rocq [string], one [ascii] per code
    point, so the embedding covers text whose code points are below 256.
    Dictionaries whose keys are only looked up are [gmap string _]; the
    objects handed to [json.dump] keep their insertion order and are built
    as [json] values. *)

From stdpp Require Import base strings list gmap pretty.
From Stdlib Require Import NArith Ascii String.

Local Open Scope string_scope.

(** ** Text primitives *)

Definition nl : string := String (ascii_of_N 10) EmptyString.

(** [str.isspace] on one code point below 256 (also the class [\s] of a
    [str] pattern). *)
Definition isspace (a : ascii) : bool :=
  let n := N_of_ascii a in
  ((9 <=? n) && (n <=? 13) || (28 <=? n) && (n <=? 32)
   || (n =? 133) || (n =? 160))%N.

Definition is_newline (a : ascii) : bool := (N_of_ascii a =? 10)%N.

Fixpoint str_take (n : nat) (s : string) : string :=
  match n, s with
  | S n', String a s' => String a (str_take n' s')
  | _, _ => EmptyString
  end.

Fixpoint str_drop (n : nat) (s : string) : string :=
  match n, s with
  | S n', String _ s' => str_drop n' s'
  | _, _ => s
  end.

Fixpoint lstrip (s : string) : string :=
  match s with
  | String a s' => if isspace a then lstrip s' else s
  | EmptyString => EmptyString
  end.

Fixpoint rstrip (s : string) : string :=
  match s with
  | String a s' =>
      match rstrip s' with
      | EmptyString => if isspace a then EmptyString else String a EmptyString
      | r => String a r
      end
  | EmptyString => EmptyString
  end.

(** [s.strip()] *)
Definition strip (s : string) : string := rstrip (lstrip s).

(** [needle in hay] on two strings *)
Fixpoint str_contains (needle hay : string) : bool :=
  String.prefix needle hay ||
  match hay with
  | String _ hay' => str_contains needle hay'
  | EmptyString => false
  end.

(** [sep.join(xs)] *)
Fixpoint join (sep : string) (xs : list string) : string :=
  match xs with
  | [] => EmptyString
  | [x] => x
  | x :: xs' => x +:+ sep +:+ join sep xs'
  end.

(** Truthiness of a string: [if s:] *)
Definition truthy (s : string) : bool :=
  match s with EmptyString => false | _ => true end.

(** ** The fragment of [re] used by the extractor

    A backtracking matcher in continuation-passing style: alternatives are
    tried left to right, a greedy star tries one more iteration before the
    continuation, a lazy star the continuation first.  Every pattern of the
    script has exactly one capturing group. *)

Inductive regex : Type :=
| Lit (s : string)
| Cls (p : ascii -> bool)
| Cat (r1 r2 : regex)
| Alt (r1 r2 : regex)
| Star (r : regex)
| StarLazy (r : regex)
| Group (r : regex)
| Ahead (r : regex)
| Bos
| Eos.

Definition Plus (r : regex) : regex := Cat r (Star r).

Record cursor := Cursor { pos : nat; rest : string; grp : option string }.

Fixpoint exec (r : regex) (k : cursor -> option cursor) (c : cursor)
  : option cursor :=
  match r with
  | Lit s =>
      if String.prefix s (rest c)
      then k (Cursor (pos c + String.length s)
                     (str_drop (String.length s) (rest c)) (grp c))
      else None
  | Cls p =>
      match rest c with
      | String a s' => if p a then k (Cursor (S (pos c)) s' (grp c)) else None
      | EmptyString => None
      end
  | Cat r1 r2 => exec r1 (exec r2 k) c
  | Alt r1 r2 =>
      match exec r1 k c with
      | Some c' => Some c'
      | None => exec r2 k c
      end
  | Star r' =>
      (fix loop (fuel : nat) (c : cursor) : option cursor :=
         match fuel with
         | O => k c
         | S fuel' =>
             match exec r' (fun c' => if (pos c <? pos c')%nat
                                      then loop fuel' c' else None) c with
             | Some c' => Some c'
             | None => k c
             end
         end) (String.length (rest c)) c
  | StarLazy r' =>
      (fix loop (fuel : nat) (c : cursor) : option cursor :=
         match k c with
         | Some c' => Some c'
         | None =>
             match fuel with
             | O => None
             | S fuel' =>
                 exec r' (fun c' => if (pos c <? pos c')%nat
                                    then loop fuel' c' else None) c
             end
         end) (String.length (rest c)) c
  | Group r' =>
      exec r' (fun c' =>
                 k (Cursor (pos c') (rest c')
                           (Some (str_take (pos c' - pos c) (rest c))))) c
  | Ahead r' =>
      match exec r' Some c with
      | Some c' => k (Cursor (pos c) (rest c) (grp c'))
      | None => None
      end
  | Bos => if (pos c =? 0)%nat then k c else None
  | Eos =>
      match rest c with
      | EmptyString => k c
      | String a EmptyString => if is_newline a then k c else None
      | _ => None
      end
  end.

Record rmatch := RMatch { m_start : nat; m_end : nat; m_group : option string }.

(** [re.search]: the leftmost start position at which the pattern matches;
    [s] is the text from position [i] on. *)
Fixpoint search_from (r : regex) (i : nat) (s : string) : option rmatch :=
  match exec r Some (Cursor i s None) with
  | Some c' => Some (RMatch i (pos c') (grp c'))
  | None =>
      match s with
      | String _ s' => search_from r (S i) s'
      | EmptyString => None
      end
  end.

Definition re_search (r : regex) (s : string) : option rmatch :=
  search_from r 0 s.

(** [m.group(1)].  In every pattern below the group lies on the mandatory
    path, so it is set whenever the pattern matches ([re_search_group] and
    [patterns_set_group]). *)
Definition group1 (m : rmatch) : string := default EmptyString (m_group m).

(** Does every match of [r] pass through its capturing group? *)
Fixpoint sets_group (r : regex) : bool :=
  match r with
  | Group _ => true
  | Cat r1 r2 => sets_group r1 || sets_group r2
  | Alt r1 r2 => sets_group r1 && sets_group r2
  | _ => false
  end.

(** [re.split] for a pattern without groups whose matches are non-empty
    (the script splits on literal markers only). *)
Fixpoint split_from (fuel : nat) (r : regex) (i : nat) (s : string)
  : list string :=
  match fuel with
  | O => [s]
  | S fuel' =>
      match search_from r i s with
      | Some m =>
          str_take (m_start m - i) s
            :: split_from fuel' r (m_end m) (str_drop (m_end m - i) s)
      | None => [s]
      end
  end.

Definition re_split (r : regex) (s : string) : list string :=
  split_from (String.length s) r 0 s.

(** Character classes and the patterns of [parse_yaml_tasks] *)
Definition ws : regex := Cls isspace.
Definition not_nl : regex := Cls (fun a => negb (is_newline a)).
Definition any : regex := Cls (fun _ => true).

(** [key:\s*([^\n]+)] *)
Definition field_re (key : string) : regex :=
  Cat (Lit key) (Cat (Star ws) (Group (Plus not_nl))).

(** [project:\s*(.+)] and [owner:\s*(.+)], compiled without DOTALL *)
Definition project_re : regex := field_re "project:".
Definition owner_re : regex := field_re "owner:".

(** [^([^\n]+)] *)
Definition first_line_re : regex := Cat Bos (Group (Plus not_nl)).

Definition phase_marker : string := nl +:+ "  - name:".
Definition task_marker : string := nl +:+ "      - id:".
Definition milestone_marker : string := nl +:+ "  - id:".

(** [phases:\s*\n(.*?)(?=milestones:|$)] with DOTALL *)
Definition phases_re : regex :=
  Cat (Lit "phases:") (Cat (Star ws) (Cat (Lit nl)
    (Cat (Group (StarLazy any)) (Ahead (Alt (Lit "milestones:") Eos))))).

(** [tasks:\s*\n(.*?)(?=\n  - name:|$)] with DOTALL *)
Definition tasks_re : regex :=
  Cat (Lit "tasks:") (Cat (Star ws) (Cat (Lit nl)
    (Cat (Group (StarLazy any)) (Ahead (Alt (Lit phase_marker) Eos))))).

(** [description:\s*(G)(?=\n      - id:|$)] with DOTALL, where the group [G]
    is [[^\n]+] followed by the lazily starred [(?:\n[^\n]* )]. *)
Definition description_re : regex :=
  Cat (Lit "description:") (Cat (Star ws)
    (Cat (Group (Cat (Plus not_nl) (StarLazy (Cat (Lit nl) (Star not_nl)))))
         (Ahead (Alt (Lit task_marker) Eos)))).

(** [milestones:\s*\n(.*?)$] with DOTALL *)
Definition milestones_re : regex :=
  Cat (Lit "milestones:") (Cat (Star ws) (Cat (Lit nl)
    (Cat (Group (StarLazy any)) Eos))).

(** ** The extracted model

    [parse_yaml_tasks] builds nested dictionaries.  Tasks and milestones map
    field names to strings; a phase holds two strings and its task list; the
    top-level dictionary holds two strings and the two record lists. *)

Inductive phase_val : Type :=
| PStr (s : string)
| PTasks (ts : list (gmap string string)).

Inductive data_val : Type :=
| DStr (s : string)
| DPhases (ps : list (gmap string phase_val))
| DMilestones (ms : list (gmap string string)).

(** [d[key] = m.group(1).strip()] guarded by [if m:] *)
Definition set_if_match {V : Type} (inj : string -> V) (key : string)
    (m : option rmatch) (d : gmap string V) : gmap string V :=
  match m with
  | Some m => <[key := inj (strip (group1 m))]> d
  | None => d
  end.

(** Lookup of a string field that the dictionary is known to hold as a
    string; absent keys read as the empty string here, the fallible
    [d[key]] of the formatters is [getitem] below. *)
Definition field (d : gmap string string) (key : string) : string :=
  default EmptyString (d !! key).

Definition pfield (d : gmap string phase_val) (key : string) : string :=
  match d !! key with Some (PStr s) => s | _ => EmptyString end.

(** Body of the task loop, lines 68-80 *)
Definition task_of_block (task_block : string) : gmap string string :=
  let task : gmap string string :=
    {[ "id" := ""; "title" := ""; "description" := "" ]} in
  let task := set_if_match id "id" (re_search first_line_re task_block) task in
  let task :=
    set_if_match id "title" (re_search (field_re "title:") task_block) task in
  set_if_match id "description" (re_search description_re task_block) task.

(** [if task['id'] and task['title']:] *)
Definition keep_record (d : gmap string string) : bool :=
  truthy (field d "id") && truthy (field d "title").

(** The blocks the task loop works on, lines 62-66: the pieces of the
    split, without piece 0 ([if j == 0: continue]). *)
Definition task_blocks (tasks_content : string) : list string :=
  drop 1 (re_split (Lit task_marker) tasks_content).

(** The task loop, lines 64-83 *)
Definition tasks_of_content (tasks_content : string)
  : list (gmap string string) :=
  List.filter keep_record (List.map task_of_block (task_blocks tasks_content)).

(** Body of the phase loop, lines 45-83 *)
Definition phase_of_block (block : string) : gmap string phase_val :=
  let phase : gmap string phase_val :=
    {[ "name" := PStr ""; "goal" := PStr ""; "tasks" := PTasks [] ]} in
  let phase := set_if_match PStr "name" (re_search first_line_re block) phase in
  let phase :=
    set_if_match PStr "goal" (re_search (field_re "goal:") block) phase in
  match re_search tasks_re block with
  | Some m => <["tasks" := PTasks (tasks_of_content (group1 m))]> phase
  | None => phase
  end.

(** [if phase['name']:] *)
Definition keep_phase (p : gmap string phase_val) : bool :=
  truthy (pfield p "name").

(** The blocks the phase loop works on, lines 39-43: the pieces of the
    split, without piece 0 ([if i == 0: continue]). *)
Definition phase_blocks (phases_content : string) : list string :=
  drop 1 (re_split (Lit phase_marker) phases_content).

(** The phase loop, lines 41-86 *)
Definition phases_of_content (phases_content : string)
  : list (gmap string phase_val) :=
  List.filter keep_phase (List.map phase_of_block (phase_blocks phases_content)).

(** Body of the milestone loop, lines 100-115 *)
Definition milestone_of_block (block : string) : gmap string string :=
  let milestone : gmap string string :=
    {[ "id" := ""; "title" := ""; "deliverables" := ""; "date" := "" ]} in
  let milestone :=
    set_if_match id "id" (re_search first_line_re block) milestone in
  let milestone :=
    set_if_match id "title" (re_search (field_re "title:") block) milestone in
  let milestone :=
    set_if_match id "deliverables"
      (re_search (field_re "deliverables:") block) milestone in
  set_if_match id "date" (re_search (field_re "date:") block) milestone.

(** The blocks the milestone loop works on, lines 94-98: the pieces of the
    split, without piece 0 ([if i == 0: continue]). *)
Definition milestone_blocks (milestones_content : string) : list string :=
  drop 1 (re_split (Lit milestone_marker) milestones_content).

(** The milestone loop, lines 96-118 *)
Definition milestones_of_content (milestones_content : string)
  : list (gmap string string) :=
  List.filter keep_record
    (List.map milestone_of_block (milestone_blocks milestones_content)).

(** The body of the [try] of [parse_yaml_tasks] once the file has been
    read, lines 17-120. *)
Definition parse_content (content : string) : gmap string data_val :=
  let tasks_data : gmap string data_val :=
    {[ "project" := DStr ""; "owner" := DStr "";
       "phases" := DPhases []; "milestones" := DMilestones [] ]} in
  let tasks_data :=
    set_if_match DStr "project" (re_search project_re content) tasks_data in
  let tasks_data :=
    set_if_match DStr "owner" (re_search owner_re content) tasks_data in
  let tasks_data :=
    match re_search phases_re content with
    | Some m => <["phases" := DPhases (phases_of_content (group1 m))]> tasks_data
    | None => tasks_data
    end in
  match re_search milestones_re content with
  | Some m =>
      <["milestones" := DMilestones (milestones_of_content (group1 m))]>
        tasks_data
  | None => tasks_data
  end.

(** ** Effects: files, standard output, the [gh] command, exceptions *)

(** What [subprocess.run(..., capture_output=True, text=True)] hands back
    once the command has run. *)
Record CompletedProcess :=
  { returncode : Z; cp_stdout : string; cp_stderr : string }.

Inductive exn : Type :=
| KeyError (key : string)
| TypeError
| FileNotFoundError (path : string)
| CalledProcessError (cmd : list string) (p : CompletedProcess)
| SystemExit (code : Z).

(** [SystemExit] derives from [BaseException] only, so [except Exception]
    lets it through. *)
Definition is_Exception (e : exn) : bool :=
  match e with SystemExit _ => false | _ => true end.

Inductive res (A : Type) : Type :=
| Ok (a : A)
| Raise (e : exn).
Arguments Ok {A} a.
Arguments Raise {A} e.

Definition rbind {A B : Type} (m : res A) (f : A -> res B) : res B :=
  match m with Ok a => f a | Raise e => Raise e end.

Notation "'let?' x ':=' m 'in' k" := (rbind m (fun x => k))
  (at level 10, x name, m at level 100, k at level 200).

(** [d[key]] *)
Definition getitem {V : Type} (d : gmap string V) (key : string) : res V :=
  match d !! key with Some v => Ok v | None => Raise (KeyError key) end.

(** A dictionary whose insertion order is observable (it is serialised). *)
Fixpoint assoc (key : string) (d : list (string * string)) : option string :=
  match d with
  | [] => None
  | (k, v) :: d' => if String.eqb k key then Some v else assoc key d'
  end.

Definition getitem_o (d : list (string * string)) (key : string) : res string :=
  match assoc key d with Some v => Ok v | None => Raise (KeyError key) end.

(** The files [path -> text], the lines printed so far, and the number of
    [gh] invocations made so far. *)
Record world := World
  { files : gmap string string; out : list string; gh_calls : nat }.

Definition M (A : Type) : Type := world -> res A * world.

Definition ret {A : Type} (a : A) : M A := fun w => (Ok a, w).

Definition raise {A : Type} (e : exn) : M A := fun w => (Raise e, w).

Definition bind {A B : Type} (m : M A) (f : A -> M B) : M B :=
  fun w => match m w with
           | (Ok a, w') => f a w'
           | (Raise e, w') => (Raise e, w')
           end.

Definition lift {A : Type} (r : res A) : M A := fun w => (r, w).

Notation "'let*' x ':=' m 'in' k" := (bind m (fun x => k))
  (at level 10, x name, m at level 100, k at level 200).
Notation "m ';;' k" := (bind m (fun _ => k))
  (at level 100, k at level 200, right associativity).

(** [print(line)] *)
Definition print (line : string) : M unit :=
  fun w => (Ok tt, World (files w) (out w ++ [line])%list (gh_calls w)).

(** [with open(path, 'r') as file: file.read()] *)
Definition read_file (path : string) : M string :=
  fun w => match files w !! path with
           | Some content => (Ok content, w)
           | None => (Raise (FileNotFoundError path), w)
           end.

(** [with open(path, 'w') as f: f.write(text)]: mode ['w'] truncates. *)
Definition write_file (path text : string) : M unit :=
  fun w => (Ok tt, World (<[path := text]> (files w)) (out w) (gh_calls w)).

(** [try: m except Exception as e: handler e] *)
Definition try_Exception {A : Type} (m : M A) (handler : exn -> M A) : M A :=
  fun w => match m w with
           | (Raise e, w') =>
               if is_Exception e then handler e w' else (Raise e, w')
           | r => r
           end.

(** [try: m except subprocess.CalledProcessError as e: handler e] *)
Definition try_CalledProcessError {A : Type} (m : M A)
    (handler : list string -> CompletedProcess -> M A) : M A :=
  fun w => match m w with
           | (Raise (CalledProcessError cmd p), w') => handler cmd p w'
           | r => r
           end.

(** [for x in xs: acc = body acc x] *)
Fixpoint for_each {A S : Type} (xs : list A) (body : S -> A -> M S) (acc : S)
  : M S :=
  match xs with
  | [] => ret acc
  | x :: xs' => let* acc' := body acc x in for_each xs' body acc'
  end.

(** ** [json.dump(obj, f, indent=2)] *)

#[warnings="-register-all"]
Inductive json : Type :=
| JStr (s : string)
| JArr (items : list json)
| JObj (members : list (string * json)).

Definition hex_digit (n : N) : ascii :=
  ascii_of_N (if (n <? 10)%N then 48 + n else 87 + n).

Definition dq : string := String (ascii_of_N 34) EmptyString.

(** One code point under [ensure_ascii=True] *)
Definition json_escape (a : ascii) : string :=
  let n := N_of_ascii a in
  if (n =? 34)%N then "\" +:+ dq
  else if (n =? 92)%N then "\\"
  else if (n =? 10)%N then "\n"
  else if (n =? 13)%N then "\r"
  else if (n =? 9)%N then "\t"
  else if (n =? 8)%N then "\b"
  else if (n =? 12)%N then "\f"
  else if ((32 <=? n) && (n <=? 126))%N then String a EmptyString
  else "\u00" +:+ String (hex_digit (n / 16)) (String (hex_digit (n mod 16)) EmptyString).

Fixpoint json_escape_all (s : string) : string :=
  match s with
  | String a s' => json_escape a +:+ json_escape_all s'
  | EmptyString => EmptyString
  end.

Definition json_string (s : string) : string := dq +:+ json_escape_all s +:+ dq.

Fixpoint spaces (n : nat) : string :=
  match n with O => EmptyString | S n' => String " "%char (spaces n') end.

Fixpoint dumps (level : nat) (j : json) : string :=
  let inner := nl +:+ spaces (2 * S level) in
  match j with
  | JStr s => json_string s
  | JArr [] => "[]"
  | JArr items =>
      "[" +:+ inner +:+ join ("," +:+ inner) (List.map (dumps (S level)) items)
          +:+ nl +:+ spaces (2 * level) +:+ "]"
  | JObj [] => "{}"
  | JObj members =>
      "{" +:+ inner
          +:+ join ("," +:+ inner)
                (List.map (fun kv => json_string (fst kv) +:+ ": "
                                       +:+ dumps (S level) (snd kv)) members)
          +:+ nl +:+ spaces (2 * level) +:+ "}"
  end.

Definition json_dumps (j : json) : string := dumps 0 j.

Definition json_of_dict (d : list (string * string)) : json :=
  JObj (List.map (fun kv => (fst kv, JStr (snd kv))) d).

(** ** Record formatting (the pure statements of [create_github_issue] and
    of the loop body of [create_milestone_issues]) *)

(** [title = f"[{task['id']}] {task['title']}"] *)
Definition issue_title (task : gmap string string) : res string :=
  let? i := getitem task "id" in
  let? t := getitem task "title" in
  Ok ("[" +:+ i +:+ "] " +:+ t).

(** The f-string of lines 132-152 *)
Definition issue_body (task : gmap string string) (phase_name : string)
    (project_info : list (string * string)) : res string :=
  let? description := getitem task "description" in
  let? project := getitem_o project_info "project" in
  let? owner := getitem_o project_info "owner" in
  let? i := getitem task "id" in
  Ok (join nl
        [ "## Task Description";
          description;
          "";
          "## Epic/Phase";
          "**" +:+ phase_name +:+ "**";
          "";
          "## Project Context";
          "- **Project:** " +:+ project;
          "- **Owner:** " +:+ owner;
          "- **Task ID:** " +:+ i;
          "";
          "## Acceptance Criteria";
          "- [ ] Implementation complete";
          "- [ ] Unit tests written";
          "- [ ] Integration tests passing";
          "- [ ] Documentation updated";
          "- [ ] Code reviewed and approved";
          "";
          "---";
          "*This issue was auto-generated from tasks.yaml*";
          "" ]).

(** [cmd = ["gh", "issue", "create", "--title", ..., "--body", ...,
    "--label", ...]] *)
Definition gh_issue_create (title body labels : string) : list string :=
  [ "gh"; "issue"; "create";
    "--title"; title; "--body"; body; "--label"; labels ].

(** Lines 155-171: the [if]/[elif] chain on the phase name *)
Definition issue_labels (phase_name : string) : list string :=
  let labels := ["task"] in
  if str_contains "Epic 1" phase_name
  then (labels ++ ["epic-1"; "control-plane"; "api"])%list
  else if str_contains "Epic 2" phase_name
  then (labels ++ ["epic-2"; "node-runtime"; "connectors"])%list
  else if str_contains "Epic 3" phase_name
  then (labels ++ ["epic-3"; "agent-definition"; "deployment"])%list
  else if str_contains "Epic 4" phase_name
  then (labels ++ ["epic-4"; "observability"; "monitoring"])%list
  else if str_contains "Epic 5" phase_name
  then (labels ++ ["epic-5"; "ui"; "frontend"])%list
  else if str_contains "Epic 6" phase_name
  then (labels ++ ["epic-6"; "infrastructure"; "ci-cd"])%list
  else if str_contains "Epic 7" phase_name
  then (labels ++ ["epic-7"; "testing"; "validation"])%list
  else if str_contains "Epic 8" phase_name
  then (labels ++ ["epic-8"; "documentation"; "demo"])%list
  else labels.

(** Lines 174-179 *)
Definition issue_cmd (task : gmap string string) (phase_name : string)
    (project_info : list (string * string)) : res (list string) :=
  let? title := issue_title task in
  let? body := issue_body task phase_name project_info in
  Ok (gh_issue_create title body (join "," (issue_labels phase_name))).

(** [title = f"[MILESTONE] {milestone['title']}"] *)
Definition milestone_title (milestone : gmap string string) : res string :=
  let? t := getitem milestone "title" in
  Ok ("[MILESTONE] " +:+ t).

(** [milestone.get('description', 'Milestone for project phase completion')] *)
Definition milestone_overview (milestone : gmap string string) : string :=
  default "Milestone for project phase completion" (milestone !! "description").

(** The f-string of lines 200-222 *)
Definition milestone_body (milestone : gmap string string)
    (project_info : list (string * string)) : res string :=
  let overview := milestone_overview milestone in
  let? deliverables := getitem milestone "deliverables" in
  let? date := getitem milestone "date" in
  let? project := getitem_o project_info "project" in
  let? owner := getitem_o project_info "owner" in
  let? i := getitem milestone "id" in
  Ok (join nl
        [ "## Milestone Overview";
          overview;
          "";
          "## Deliverables";
          deliverables;
          "";
          "## Target Date";
          "**" +:+ date +:+ "**";
          "";
          "## Project Context";
          "- **Project:** " +:+ project;
          "- **Owner:** " +:+ owner;
          "- **Milestone ID:** " +:+ i;
          "";
          "## Completion Criteria";
          "- [ ] All related tasks completed";
          "- [ ] Deliverables validated";
          "- [ ] Documentation updated";
          "- [ ] Demo/review completed";
          "";
          "---";
          "*This milestone was auto-generated from tasks.yaml*";
          "" ]).

Definition milestone_labels : string := "milestone,epic".

(** Lines 224-229 *)
Definition milestone_cmd (milestone : gmap string string)
    (project_info : list (string * string)) : res (list string) :=
  let? title := milestone_title milestone in
  let? body := milestone_body milestone project_info in
  Ok (gh_issue_create title body milestone_labels).

(** Fifty ['='] signs: ["=" * 50] *)
Fixpoint repeat_str (s : string) (n : nat) : string :=
  match n with O => EmptyString | S n' => s +:+ repeat_str s n' end.

Definition summary_path : string := "github_issues_summary.json".

(** The dictionary appended to [created_issues], lines 268-272 *)
Definition issue_record (i title url : string) : list (string * string) :=
  [ ("task_id", i); ("title", title); ("url", url) ].

(** The [summary] dictionary, lines 285-289 *)
Definition summary_json (project_info : list (string * string))
    (created_issues : list (list (string * string)))
    (milestone_urls : list string) : json :=
  JObj [ ("project", json_of_dict project_info);
         ("created_issues", JArr (List.map json_of_dict created_issues));
         ("milestone_urls", JArr (List.map JStr milestone_urls)) ].

(** Reading a value where the script expects a string, a list of phases,
    a list of tasks or a list of milestones.  The extractor only ever
    stores the expected shape under each key ([main_completes] below); any
    other shape is reported as [TypeError]. *)
Definition as_str (v : data_val) : res string :=
  match v with DStr s => Ok s | _ => Raise TypeError end.

Definition as_phases (v : data_val) : res (list (gmap string phase_val)) :=
  match v with DPhases ps => Ok ps | _ => Raise TypeError end.

Definition as_milestones (v : data_val) : res (list (gmap string string)) :=
  match v with DMilestones ms => Ok ms | _ => Raise TypeError end.

Definition as_pstr (v : phase_val) : res string :=
  match v with PStr s => Ok s | _ => Raise TypeError end.

Definition as_tasks (v : phase_val) : res (list (gmap string string)) :=
  match v with PTasks ts => Ok ts | _ => Raise TypeError end.

(** [project_info], lines 248-251 *)
Definition project_info_of (tasks_data : gmap string data_val)
  : res (list (string * string)) :=
  let? project :=
    as_str (default (DStr "Unknown Project") (tasks_data !! "project")) in
  let? owner :=
    as_str (default (DStr "Unknown Owner") (tasks_data !! "owner")) in
  Ok [ ("project", project); ("owner", owner) ].

Section Script.

(** The external command: what the [n]-th invocation of [gh] (counting
    from 0) answers to the argument vector it is given. *)
Variable gh : nat -> list string -> CompletedProcess.

(** The text [str(e)] of an exception other than a missing file (Python
    derives it from the exception's arguments). *)
Variable exn_text : exn -> string.

Definition str_exn (e : exn) : string :=
  match e with
  | FileNotFoundError path =>
      "[Errno 2] No such file or directory: '" +:+ path +:+ "'"
  | _ => exn_text e
  end.

(** [subprocess.run(cmd, capture_output=True, text=True, check=True)] *)
Definition subprocess_run (cmd : list string) : M CompletedProcess :=
  fun w =>
    let p := gh (gh_calls w) cmd in
    let w' := World (files w) (out w) (S (gh_calls w)) in
    if (returncode p =? 0)%Z then (Ok p, w')
    else (Raise (CalledProcessError cmd p), w').

(** [sys.exit(code)] *)
Definition sys_exit {A : Type} (code : Z) : M A := raise (SystemExit code).

Definition parse_yaml_tasks (file_path : string)
  : M (gmap string data_val) :=
  try_Exception
    (let* content := read_file file_path in
     ret (parse_content content))
    (fun e =>
       print ("Error loading tasks file: " +:+ str_exn e) ;;
       sys_exit 1).

(** The two [print]s of an [except subprocess.CalledProcessError] *)
Definition report_failure (what title : string) (cmd : list string)
    (p : CompletedProcess) : M unit :=
  print ("Error creating " +:+ what +:+ " '" +:+ title +:+ "': "
           +:+ str_exn (CalledProcessError cmd p)) ;;
  if truthy (cp_stderr p)
  then print ("  Error output: " +:+ cp_stderr p)
  else ret tt.

Definition create_github_issue (task : gmap string string)
    (phase_name : string) (project_info : list (string * string))
  : M (option string) :=
  let* title := lift (issue_title task) in
  let* body := lift (issue_body task phase_name project_info) in
  let labels := issue_labels phase_name in
  let cmd := gh_issue_create title body (join "," labels) in
  try_CalledProcessError
    (let* result := subprocess_run cmd in
     let issue_url := strip (cp_stdout result) in
     print ("Created issue: " +:+ title) ;;
     print ("  URL: " +:+ issue_url) ;;
     ret (Some issue_url))
    (fun cmd' p =>
       report_failure "issue" title cmd' p ;;
       ret None).

(** Lines 198-240: the loop body of [create_milestone_issues] *)
Definition submit_milestone (project_info : list (string * string))
    (milestone_urls : list string) (milestone : gmap string string)
  : M (list string) :=
  let* title := lift (milestone_title milestone) in
  let* body := lift (milestone_body milestone project_info) in
  let cmd := gh_issue_create title body milestone_labels in
  try_CalledProcessError
    (let* result := subprocess_run cmd in
     let issue_url := strip (cp_stdout result) in
     print ("Created milestone: " +:+ title) ;;
     print ("  URL: " +:+ issue_url) ;;
     ret (milestone_urls ++ [issue_url])%list)
    (fun cmd' p =>
       report_failure "milestone" title cmd' p ;;
       ret milestone_urls).

Definition create_milestone_issues (milestones : list (gmap string string))
    (project_info : list (string * string)) : M (list string) :=
  for_each milestones (submit_milestone project_info) [].

(** Lines 266-272: the body of the inner loop of [main] *)
Definition submit_task (phase_name : string)
    (project_info : list (string * string))
    (created_issues : list (list (string * string)))
    (task : gmap string string) : M (list (list (string * string))) :=
  let* issue_url := create_github_issue task phase_name project_info in
  match issue_url with
  | Some url =>
      if truthy url
      then
        let* i := lift (getitem task "id") in
        let* t := lift (getitem task "title") in
        ret (created_issues ++ [issue_record i t url])%list
      else ret created_issues
  | None => ret created_issues
  end.

(** Lines 261-272: the body of the outer loop of [main] *)
Definition submit_phase (project_info : list (string * string))
    (created_issues : list (list (string * string)))
    (phase : gmap string phase_val) : M (list (list (string * string))) :=
  let* phase_name := lift (let? v := getitem phase "name" in as_pstr v) in
  print (nl +:+ "Processing phase: " +:+ phase_name) ;;
  let* goal :=
    lift (as_pstr (default (PStr "No goal specified") (phase !! "goal"))) in
  print ("Goal: " +:+ goal) ;;
  let* tasks := lift (as_tasks (default (PTasks []) (phase !! "tasks"))) in
  for_each tasks (submit_task phase_name project_info) created_issues.

(** Lines 257-272 *)
Definition submit_phases (project_info : list (string * string))
    (phases : list (gmap string phase_val))
  : M (list (list (string * string))) :=
  for_each phases (submit_phase project_info) [].

Definition main : M unit :=
  let* tasks_data := parse_yaml_tasks "tasks.yaml" in
  let* project_info := lift (project_info_of tasks_data) in
  let* project := lift (getitem_o project_info "project") in
  print ("Creating GitHub issues for: " +:+ project) ;;
  let* owner := lift (getitem_o project_info "owner") in
  print ("Owner: " +:+ owner) ;;
  print (repeat_str "=" 50) ;;
  let* phases := lift (as_phases (default (DPhases []) (tasks_data !! "phases"))) in
  let* created_issues := submit_phases project_info phases in
  let* milestone_urls :=
    match tasks_data !! "milestones" with
    | Some v =>
        print (nl +:+ "Creating milestone issues...") ;;
        let* milestones := lift (as_milestones v) in
        let* urls := create_milestone_issues milestones project_info in
        ret (Some urls)
    | None => ret None
    end in
  print (nl +:+ repeat_str "=" 50) ;;
  print ("Summary: Created " +:+ pretty (List.length created_issues)
           +:+ " task issues") ;;
  match milestone_urls with
  | Some urls =>
      print ("Created " +:+ pretty (List.length urls) +:+ " milestone issues")
  | None => ret tt
  end ;;
  let summary :=
    summary_json project_info created_issues (default [] milestone_urls) in
  write_file summary_path (json_dumps summary) ;;
  print (nl +:+ "Summary saved to: github_issues_summary.json") ;;
  print "Repository: https://github.com/dylan-mccarthy/Scalable-Process-Agent-System".

(** Running the script as a process: the exit status and the final world.
    An exception that reaches the top level ends the process with
    status 1, [sys.exit(code)] with [code]. *)
Definition run_script (w : world) : Z * world :=
  match main w with
  | (Ok _, w') => (0%Z, w')
  | (Raise (SystemExit code), w') => (code, w')
  | (Raise _, w') => (1%Z, w')
  end.

End Script.

(** ** Reading the extracted model and the outcome of a run *)

Definition model_phases (tasks_data : gmap string data_val)
  : list (gmap string phase_val) :=
  match tasks_data !! "phases" with Some (DPhases ps) => ps | _ => [] end.

Definition model_milestones (tasks_data : gmap string data_val)
  : list (gmap string string) :=
  match tasks_data !! "milestones" with Some (DMilestones ms) => ms | _ => [] end.

Definition phase_tasks (phase : gmap string phase_val)
  : list (gmap string string) :=
  match phase !! "tasks" with Some (PTasks ts) => ts | _ => [] end.

(** The tasks of the model in the order [main] walks them, each with the
    name of its phase. *)
Definition tasks_of_phases (phases : list (gmap string phase_val))
  : list (string * gmap string string) :=
  flat_map (fun phase => List.map (pair (pfield phase "name")) (phase_tasks phase))
           phases.

Definition model_tasks (tasks_data : gmap string data_val)
  : list (string * gmap string string) :=
  tasks_of_phases (model_phases tasks_data).

(** The value a single-line field pattern extracts from a text: the
    stripped group of the first match, the empty string without a match. *)
Definition extracted (r : regex) (s : string) : string :=
  match re_search r s with Some m => strip (group1 m) | None => "" end.

(** The [project_info] that [main] builds for a document. *)
Definition document_info (content : string) : list (string * string) :=
  [ ("project", extracted project_re content);
    ("owner", extracted owner_re content) ].

(** The blocks the three loops of the extractor work on for a document. *)
Definition document_phase_blocks (content : string) : list string :=
  match re_search phases_re content with
  | Some m => phase_blocks (group1 m)
  | None => []
  end.

Definition phase_task_blocks (block : string) : list string :=
  match re_search tasks_re block with
  | Some m => task_blocks (group1 m)
  | None => []
  end.

Definition document_milestone_blocks (content : string) : list string :=
  match re_search milestones_re content with
  | Some m => milestone_blocks (group1 m)
  | None => []
  end.

(** The reference [gh] printed, when it exited with status 0. *)
Definition created_url (p : CompletedProcess) : option string :=
  if (returncode p =? 0)%Z then Some (strip (cp_stdout p)) else None.

(** What the [n]-th invocation contributes to [created_issues] when it
    submits task [pt]. *)
Definition task_record (gh : nat -> list string -> CompletedProcess)
    (project_info : list (string * string)) (n : nat)
    (pt : string * gmap string string) : list (list (string * string)) :=
  match issue_cmd (snd pt) (fst pt) project_info with
  | Ok cmd =>
      match created_url (gh n cmd) with
      | Some url =>
          if truthy url
          then [issue_record (field (snd pt) "id") (field (snd pt) "title") url]
          else []
      | None => []
      end
  | Raise _ => []
  end.

Fixpoint created_from (gh : nat -> list string -> CompletedProcess)
    (project_info : list (string * string)) (n : nat)
    (pts : list (string * gmap string string))
  : list (list (string * string)) :=
  match pts with
  | [] => []
  | pt :: pts' =>
      (task_record gh project_info n pt
         ++ created_from gh project_info (S n) pts')%list
  end.

(** What the [n]-th invocation contributes to [milestone_urls]. *)
Definition milestone_url (gh : nat -> list string -> CompletedProcess)
    (project_info : list (string * string)) (n : nat)
    (milestone : gmap string string) : list string :=
  match milestone_cmd milestone project_info with
  | Ok cmd =>
      match created_url (gh n cmd) with
      | Some url => [url]
      | None => []
      end
  | Raise _ => []
  end.

Fixpoint urls_from (gh : nat -> list string -> CompletedProcess)
    (project_info : list (string * string)) (n : nat)
    (milestones : list (gmap string string)) : list string :=
  match milestones with
  | [] => []
  | m :: ms' =>
      (milestone_url gh project_info n m
         ++ urls_from gh project_info (S n) ms')%list
  end.


(** The label lookup as an ordered table of markers and label trios, tested
    in order, the first match winning and no match giving no extra label. *)
Definition epic_table : list (string * list string) :=
  [ ("Epic 1", ["epic-1"; "control-plane"; "api"]);
    ("Epic 2", ["epic-2"; "node-runtime"; "connectors"]);
    ("Epic 3", ["epic-3"; "agent-definition"; "deployment"]);
    ("Epic 4", ["epic-4"; "observability"; "monitoring"]);
    ("Epic 5", ["epic-5"; "ui"; "frontend"]);
    ("Epic 6", ["epic-6"; "infrastructure"; "ci-cd"]);
    ("Epic 7", ["epic-7"; "testing"; "validation"]);
    ("Epic 8", ["epic-8"; "documentation"; "demo"]) ].

Fixpoint first_match (table : list (string * list string))
    (phase_name : string) : list string :=
  match table with
  | [] => []
  | (marker, trio) :: table' =>
      if str_contains marker phase_name then trio
      else first_match table' phase_name
  end.

(** ** Predicates used in the proofs *)

(** [m] run in world [w] returns [a] without raising, leaves the files
    [fs], has made [n] invocations of [gh] in total, and has only added
    lines to the output. *)
Definition runs {A : Type} (m : M A) (w : world) (a : A)
    (fs : gmap string string) (n : nat) : Prop :=
  exists log, m w = (Ok a, World fs (out w ++ log)%list n).

Definition task_wf (t : gmap string string) : Prop :=
  is_Some (t !! "id") /\ is_Some (t !! "title") /\ is_Some (t !! "description").

Definition milestone_wf (m : gmap string string) : Prop :=
  is_Some (m !! "id") /\ is_Some (m !! "title")
  /\ is_Some (m !! "deliverables") /\ is_Some (m !! "date").

Definition pinfo_wf (project_info : list (string * string)) : Prop :=
  is_Some (assoc "project" project_info) /\ is_Some (assoc "owner" project_info).

Definition phase_wf (p : gmap string phase_val) : Prop :=
  exists n g ts, p !! "name" = Some (PStr n) /\ p !! "goal" = Some (PStr g)
                 /\ p !! "tasks" = Some (PTasks ts) /\ Forall task_wf ts.

(** ** Concrete inputs *)

(** A document given line by line, each line ending in a newline. *)
Definition lines (ls : list string) : string := join nl ls +:+ nl.

Definition sample_info : list (string * string) :=
  [ ("project", "Business Process Agents MVP"); ("owner", "Platform Engineering") ].

Definition sample_milestone : gmap string string :=
  {[ "id" := "M1"; "title" := "Phase 1 complete";
     "deliverables" := "Control plane"; "date" := "2025-12-01" ]}.

Definition sample_task : gmap string string :=
  {[ "id" := "E2-T4"; "title" := "Build connector";
     "description" := "Connect the node runtime." ]}.

(** A [gh] that always succeeds and prints the URL of the new issue. *)
Definition always_ok (n : nat) (cmd : list string) : CompletedProcess :=
  {| returncode := 0; cp_stdout := "https://github.com/o/r/issues/" +:+ pretty n +:+ nl;
     cp_stderr := "" |}.


Definition demo_doc : string :=
  lines
    [ "project: Business Process Agents MVP";
      "owner: Platform Engineering";
      "phases:";
      "  - name: Epic 1 - Control Plane Foundations";
      "    goal: Build the control plane";
      "    tasks:";
      "      - id: E1-T1";
      "        title: API skeleton";
      "        description: Create the service.";
      "  - name: Epic 2 - Node Runtime & Connectors";
      "    goal: Run agents on nodes";
      "    tasks:";
      "      - id: E2-T1";
      "        title: Node runtime skeleton";
      "        description: Create the worker service.";
      "      - id: E2-T2";
      "        title: Lease client";
      "        description: Pull leases.";
      "      - id: E2-T3";
      "        title: Heartbeats";
      "        description: Report node health.";
      "      - id: E2-T4";
      "        title: Build connector";
      "        description: Connect the node runtime.";
      "milestones:";
      "  - id: M1";
      "    title: Phase 1 complete";
      "    deliverables: Control plane";
      "    date: 2025-12-01";
      "  - id: M2";
      "    title: Phase 2 complete";
      "    description: Runtime ready";
      "    deliverables: Node runtime";
      "    date: 2026-01-15" ].

(** A document without a project line and without an owner line. *)
Definition anonymous_doc : string :=
  lines
    [ "phases:";
      "  - name: Epic 1 - Control Plane Foundations";
      "    goal: Build the control plane" ].

(** The first task of the second phase of [demo_doc] and the first
    milestone, as the text behind their markers. *)
Definition first_task_block : string :=
  " E2-T1" +:+ nl +:+ "        title: Node runtime skeleton"
    +:+ nl +:+ "        description: Create the worker service.".

Definition first_milestone_block : string :=
  " M1" +:+ nl +:+ "    title: Phase 1 complete"
    +:+ nl +:+ "    deliverables: Control plane"
    +:+ nl +:+ "    date: 2025-12-01".

Definition demo_world : world :=
  World {[ "tasks.yaml" := demo_doc ]} [] 0.

(** ** Auxiliary notions for the properties of the extractor *)

(** Do all characters of [s] satisfy [p]? *)
Fixpoint str_all (p : ascii -> bool) (s : string) : bool :=
  match s with
  | String a s' => p a && str_all p s'
  | EmptyString => true
  end.

(** A text without a newline. *)
Definition one_line (s : string) : Prop :=
  str_all (fun a => negb (is_newline a)) s = true.

(** [hay.find(needle)]: the position of the first occurrence. *)
Fixpoint str_find (needle hay : string) : option nat :=
  if String.prefix needle hay then Some 0
  else match hay with
       | String _ hay' => option_map S (str_find needle hay')
       | EmptyString => None
       end.

(** The loop of a lazy star, with its fuel. *)
Definition lazy_loop (r : regex) (k : cursor -> option cursor)
  : nat -> cursor -> option cursor :=
  fix loop (fuel : nat) (c : cursor) : option cursor :=
    match k c with
    | Some c' => Some c'
    | None =>
        match fuel with
        | O => None
        | S fuel' =>
            exec r (fun c' => if (pos c <? pos c')%nat
                              then loop fuel' c' else None) c
        end
    end.



(** The patterns of [parse_yaml_tasks] whose group is read with
    [.group(1)]. *)
Definition script_patterns : list regex :=
  [ project_re; owner_re; phases_re; first_line_re; field_re "goal:";
    tasks_re; field_re "title:"; description_re; milestones_re;
    field_re "deliverables:"; field_re "date:" ].

(** ** create_missing_issues.py: the formatter of the follow-up script

    [create_github_issue(task)] of create_missing_issues.py, lines 30-60:
    the task dictionary carries its epic and its labels, the project
    context is written into the body, and the body ends without a
    newline. *)
Module Missing.

Definition issue_body (task : gmap string string) : res string :=
  let? description := getitem task "description" in
  let? epic := getitem task "epic" in
  let? i := getitem task "id" in
  Ok (join nl
        [ "## Task Description";
          description;
          "";
          "## Epic/Phase";
          "**" +:+ epic +:+ "**";
          "";
          "## Project Context";
          "- **Project:** Business Process Agents MVP";
          "- **Owner:** Platform Engineering";
          "- **Task ID:** " +:+ i;
          "";
          "## Acceptance Criteria";
          "- [ ] Implementation complete";
          "- [ ] Unit tests written";
          "- [ ] Integration tests passing";
          "- [ ] Documentation updated";
          "- [ ] Code reviewed and approved";
          "";
          "---";
          "*This issue was auto-generated from tasks.yaml*" ]).

(** Lines 55-60 *)
Definition issue_cmd (task : gmap string string) : res (list string) :=
  let? title := issue_title task in
  let? body := issue_body task in
  let? labels := getitem task "labels" in
  Ok (gh_issue_create title body labels).

End Missing.

(** ** Further inputs *)


Definition prints_blank (n : nat) (cmd : list string) : CompletedProcess :=
  {| returncode := 0; cp_stdout := nl; cp_stderr := "" |}.

(** A task block and a milestone block of [demo_doc]. *)
Definition demo_task_block : string :=
  " E2-T4" +:+ nl +:+ "        title: Build connector"
    +:+ nl +:+ "        description: Connect the node runtime.".

Definition demo_milestone_block : string :=
  " M2" +:+ nl +:+ "    title: Phase 2 complete"
    +:+ nl +:+ "    description: Runtime ready"
    +:+ nl +:+ "    deliverables: Node runtime"
    +:+ nl +:+ "    date: 2026-01-15".

(** A task block with a further key behind its description. *)
Definition annotated_task_block : string :=
  " E2-T2" +:+ nl +:+ "        title: Lease client" +:+ nl
    +:+ "        description: Pull leases." +:+ nl
    +:+ "        owner: Platform team".

(** The entry E2-T1 of [missing_tasks], the dash of its epic written as a
    hyphen. *)
Definition follow_up_task : gmap string string :=
  {[ "id" := "E2-T1"; "title" := "Node runtime skeleton";
     "description"
       := "Create .NET Worker Service with gRPC client implementation.";
     "epic" := "Epic 2 - Node Runtime & Connectors";
     "labels" := "task,epic-2,node-runtime,connectors" ]}.

(** * Properties *)

(** ** The matcher *)

(** Whatever [exec] returns was returned by its continuation, and a group
    that was set on entry is still set when the continuation is called. *)
Lemma exec_continues (r : regex) :
  forall k c c', exec r k c = Some c' ->
  exists c'', k c'' = Some c' /\ (is_Some (grp c) -> is_Some (grp c'')).
Proof.
  induction r as [l|p|r1 IH1 r2 IH2|r1 IH1 r2 IH2|r IH|r IH|r IH|r IH| |];
    intros k c c' H; cbn [exec] in H.
  - destruct (String.prefix l (rest c)); [|discriminate]. eauto.
  - destruct (rest c) as [|a s]; [discriminate|].
    destruct (p a); [|discriminate]. eauto.
  - apply IH1 in H as (c1 & H & Hg1). apply IH2 in H as (c2 & H & Hg2). eauto.
  - destruct (exec r1 k c) eqn:E1.
    + injection H as ->. by apply IH1 in E1.
    + by apply IH2 in H.
  - remember (String.length (rest c)) as fuel eqn:Hfuel. clear Hfuel.
    revert c H. induction fuel as [|fuel IHf]; intros c H; [eauto|].
    destruct (exec r _ c) eqn:E.
    + injection H as ->. apply IH in E as (c1 & E & Hg1).
      destruct (pos c <? pos c1)%nat; [|discriminate].
      apply IHf in E as (c2 & E & Hg2). eauto.
    + eauto.
  - remember (String.length (rest c)) as fuel eqn:Hfuel. clear Hfuel.
    revert c H. induction fuel as [|fuel IHf]; intros c H.
    + destruct (k c) eqn:E; [injection H as ->; eauto | discriminate].
    + destruct (k c) eqn:E; [injection H as ->; eauto|].
      apply IH in H as (c1 & H & Hg1).
      destruct (pos c <? pos c1)%nat; [|discriminate].
      apply IHf in H as (c2 & H & Hg2). eauto.
  - apply IH in H as (c1 & H & _). eexists. split; [exact H|]. by eexists.
  - destruct (exec r Some c) eqn:E; [|discriminate].
    apply IH in E as (c1 & [= ->] & Hg). eauto.
  - destruct (pos c =? 0)%nat; [eauto | discriminate].
  - destruct (rest c) as [|a [|b s]]; [eauto | | discriminate].
    destruct (is_newline a); [eauto | discriminate].
Qed.

Lemma exec_sets_group (r : regex) :
  sets_group r = true ->
  forall k c c', exec r k c = Some c' ->
  exists c'', k c'' = Some c' /\ is_Some (grp c'').
Proof.
  induction r as [l|p|r1 IH1 r2 IH2|r1 IH1 r2 IH2|r IH|r IH|r IH|r IH| |];
    cbn [sets_group]; intros Hs k c c' H; try discriminate.
  - cbn [exec] in H. apply orb_true_iff in Hs as [Hs|Hs].
    + apply (IH1 Hs) in H as (c1 & H & Hg1).
      apply exec_continues in H as (c2 & H & Hg2). eauto.
    + apply exec_continues in H as (c1 & H & _).
      by apply (IH2 Hs) in H.
  - cbn [exec] in H. apply andb_true_iff in Hs as [Hs1 Hs2].
    destruct (exec r1 k c) eqn:E1.
    + injection H as ->. by apply (IH1 Hs1) in E1.
    + by apply (IH2 Hs2) in H.
  - cbn [exec] in H. apply exec_continues in H as (c1 & H & _).
    eexists. split; [exact H|]. by eexists.
Qed.

(** A match of a pattern that always passes through its group has the
    group set, so [group1] is the text Python's [m.group(1)] returns. *)
Lemma re_search_group (r : regex) (s : string) (m : rmatch) :
  sets_group r = true -> re_search r s = Some m -> is_Some (m_group m).
Proof.
  intros Hs. unfold re_search. generalize 0%nat as i. revert m.
  induction s as [|a s IH]; intros m i H; cbn [search_from] in H.
  - destruct (exec r Some _) eqn:E; [|discriminate]. injection H as <-.
    by apply (exec_sets_group r Hs) in E as (c1 & [= ->] & Hg).
  - destruct (exec r Some _) eqn:E; [|by apply IH in H]. injection H as <-.
    by apply (exec_sets_group r Hs) in E as (c1 & [= ->] & Hg).
Qed.

Lemma patterns_set_group :
  Forall (fun r => sets_group r = true)
    [ project_re; owner_re; phases_re; first_line_re; field_re "goal:";
      tasks_re; field_re "title:"; description_re; milestones_re;
      field_re "deliverables:"; field_re "date:" ].
Proof. repeat constructor. Qed.

(** ** Stepping through the effects *)

Section Runs.
Context {A B : Type}.

Lemma runs_ret (a : A) w : runs (ret a) w a (files w) (gh_calls w).
Proof. exists []. destruct w; unfold ret; cbn. by rewrite app_nil_r. Qed.

Lemma runs_lift (a : A) w : runs (lift (Ok a)) w a (files w) (gh_calls w).
Proof. apply runs_ret. Qed.

Lemma runs_bind (m : M A) (f : A -> M B) w a b fs1 n1 fs2 n2 :
  runs m w a fs1 n1 ->
  (forall w', files w' = fs1 -> gh_calls w' = n1 -> runs (f a) w' b fs2 n2) ->
  runs (bind m f) w b fs2 n2.
Proof.
  intros [log1 H1] H2.
  destruct (H2 (World fs1 (out w ++ log1)%list n1) eq_refl eq_refl) as [log2 H3].
  exists (log1 ++ log2)%list. unfold bind. rewrite H1, H3. cbn.
  by rewrite app_assoc.
Qed.
End Runs.

Lemma runs_print line w : runs (print line) w tt (files w) (gh_calls w).
Proof. by exists [line]. Qed.

Lemma runs_write path text w :
  runs (write_file path text) w tt (<[path := text]> (files w)) (gh_calls w).
Proof. exists []. unfold write_file. by rewrite app_nil_r. Qed.

Lemma issue_cmd_wf t pn pinfo :
  task_wf t -> pinfo_wf pinfo ->
  exists title body,
    issue_title t = Ok title /\ issue_body t pn pinfo = Ok body
    /\ issue_cmd t pn pinfo
       = Ok (gh_issue_create title body (join "," (issue_labels pn))).
Proof.
  intros ([i Hi] & [ti Ht] & [d Hd]) ([p Hp] & [o Ho]).
  unfold issue_cmd, issue_title, issue_body, getitem, getitem_o.
  rewrite Hi, Ht, Hd, Hp, Ho. cbn [rbind]. eauto.
Qed.

Section Submission.
Variable gh : nat -> list string -> CompletedProcess.
Variable exn_text : exn -> string.

Lemma runs_report what title cmd p w :
  runs (report_failure exn_text what title cmd p) w tt (files w) (gh_calls w).
Proof.
  unfold report_failure.
  eapply runs_bind; [apply runs_print|]. intros w' <- <-.
  destruct (truthy (cp_stderr p)); [apply runs_print | apply runs_ret].
Qed.

Lemma subprocess_run_eq cmd w :
  subprocess_run gh cmd w
  = (if (returncode (gh (gh_calls w) cmd) =? 0)%Z
     then Ok (gh (gh_calls w) cmd)
     else Raise (CalledProcessError cmd (gh (gh_calls w) cmd)),
     World (files w) (out w) (S (gh_calls w))).
Proof. unfold subprocess_run. cbv zeta. by destruct (_ =? _)%Z. Qed.

Lemma runs_create_github_issue t pn pinfo title body w :
  issue_title t = Ok title -> issue_body t pn pinfo = Ok body ->
  runs (create_github_issue gh exn_text t pn pinfo) w
       (created_url (gh (gh_calls w)
          (gh_issue_create title body (join "," (issue_labels pn)))))
       (files w) (S (gh_calls w)).
Proof.
  intros Ht Hb. unfold create_github_issue. rewrite Ht, Hb.
  unfold runs, created_url, bind at 1 2, lift, try_CalledProcessError, bind at 1.
  rewrite subprocess_run_eq.
  destruct (returncode _ =? 0)%Z.
  - eexists. unfold bind, print, ret. cbn. rewrite <- app_assoc. reflexivity.
  - unfold bind.
    match goal with
    | |- context [report_failure _ ?a ?b ?c ?d ?w1] =>
        destruct (runs_report a b c d w1) as [log Hl]
    end.
    exists log. unfold bind. rewrite Hl. reflexivity.
Qed.

Lemma created_from_app pinfo n l1 l2 :
  created_from gh pinfo n (l1 ++ l2)
  = (created_from gh pinfo n l1
       ++ created_from gh pinfo (n + List.length l1) l2)%list.
Proof.
  revert n. induction l1 as [|pt l1 IH]; intros n; cbn.
  - by rewrite Nat.add_0_r.
  - rewrite IH, <- app_assoc. do 3 f_equal. lia.
Qed.

Lemma runs_submit_task pn pinfo t acc w :
  task_wf t -> pinfo_wf pinfo ->
  runs (submit_task gh exn_text pn pinfo acc t) w
       (acc ++ task_record gh pinfo (gh_calls w) (pn, t))%list
       (files w) (S (gh_calls w)).
Proof.
  intros Ht Hp.
  destruct (issue_cmd_wf t pn pinfo Ht Hp) as (title & body & H1 & H2 & H3).
  unfold submit_task, task_record. cbn [fst snd]. rewrite H3.
  eapply runs_bind; [by apply runs_create_github_issue|].
  intros w' Hf Hg. rewrite <- Hf, <- Hg.
  destruct (created_url _) as [url|];
    [|rewrite app_nil_r; apply runs_ret].
  destruct (truthy url); [|rewrite app_nil_r; apply runs_ret].
  destruct Ht as ([i Hi] & [ti Hti] & _).
  unfold getitem, field. rewrite Hi, Hti. cbn [default].
  eapply runs_bind; [apply runs_lift|]. intros w2 <- <-.
  eapply runs_bind; [apply runs_lift|]. intros w3 <- <-.
  apply runs_ret.
Qed.

Lemma runs_submit_tasks pn pinfo ts acc w :
  Forall task_wf ts -> pinfo_wf pinfo ->
  runs (for_each ts (submit_task gh exn_text pn pinfo) acc) w
       (acc ++ created_from gh pinfo (gh_calls w) (List.map (pair pn) ts))%list
       (files w) (gh_calls w + List.length ts).
Proof.
  intros Hts Hp. revert acc w.
  induction Hts as [|t ts Ht Hts IH]; intros acc w.
  - cbn. rewrite app_nil_r, Nat.add_0_r. apply runs_ret.
  - cbn [for_each List.map created_from].
    eapply runs_bind; [by apply runs_submit_task|].
    intros w' Hf Hg. rewrite app_assoc, <- Hf, <- Hg.
    replace (gh_calls w + List.length (t :: ts))
      with (gh_calls w' + List.length ts) by (rewrite Hg; cbn; lia).
    apply IH.
Qed.

Lemma runs_submit_phase pinfo p acc w :
  phase_wf p -> pinfo_wf pinfo ->
  runs (submit_phase gh exn_text pinfo acc p) w
       (acc ++ created_from gh pinfo (gh_calls w)
                 (List.map (pair (pfield p "name")) (phase_tasks p)))%list
       (files w) (gh_calls w + List.length (phase_tasks p)).
Proof.
  intros (n & g & ts & Hn & Hg & Hts & Hwf) Hp.
  unfold submit_phase, getitem, pfield, phase_tasks.
  rewrite Hn, Hg, Hts. cbn [rbind as_pstr as_tasks default].
  eapply runs_bind; [apply runs_lift|]. intros w1 <- <-.
  eapply runs_bind; [apply runs_print|]. intros w2 <- <-.
  eapply runs_bind; [apply runs_lift|]. intros w3 <- <-.
  eapply runs_bind; [apply runs_print|]. intros w4 <- <-.
  eapply runs_bind; [apply runs_lift|]. intros w5 <- <-.
  by apply runs_submit_tasks.
Qed.

Lemma runs_submit_phases pinfo ps acc w :
  Forall phase_wf ps -> pinfo_wf pinfo ->
  runs (for_each ps (submit_phase gh exn_text pinfo) acc) w
       (acc ++ created_from gh pinfo (gh_calls w) (tasks_of_phases ps))%list
       (files w) (gh_calls w + List.length (tasks_of_phases ps)).
Proof.
  intros Hps Hp. revert acc w.
  induction Hps as [|p ps Hp1 Hps IH]; intros acc w.
  - cbn. rewrite app_nil_r, Nat.add_0_r. apply runs_ret.
  - cbn [for_each tasks_of_phases flat_map].
    eapply runs_bind; [by apply runs_submit_phase|].
    intros w' Hf Hg.
    rewrite created_from_app, app_assoc, length_app, length_map in *.
    rewrite <- Hf, Nat.add_assoc, <- Hg. apply IH.
Qed.

Lemma runs_submit_milestone pinfo m acc w :
  milestone_wf m -> pinfo_wf pinfo ->
  runs (submit_milestone gh exn_text pinfo acc m) w
       (acc ++ milestone_url gh pinfo (gh_calls w) m)%list
       (files w) (S (gh_calls w)).
Proof.
  intros ([i Hi] & [ti Ht] & [d Hd] & [da Hda]) ([p Hp] & [o Ho]).
  unfold submit_milestone, milestone_url, milestone_cmd, milestone_title,
    milestone_body, getitem, getitem_o.
  rewrite Hi, Ht, Hd, Hda, Hp, Ho. cbn [rbind].
  unfold runs, created_url, bind at 1 2, lift, try_CalledProcessError, bind at 1.
  rewrite subprocess_run_eq.
  destruct (returncode _ =? 0)%Z.
  - eexists. unfold bind, print, ret. cbn. rewrite <- app_assoc. reflexivity.
  - unfold bind.
    match goal with
    | |- context [report_failure _ ?a ?b ?c ?d ?w1] =>
        destruct (runs_report a b c d w1) as [log Hl]
    end.
    exists log. rewrite Hl. by rewrite app_nil_r.
Qed.

Lemma runs_create_milestone_issues pinfo ms acc w :
  Forall milestone_wf ms -> pinfo_wf pinfo ->
  runs (for_each ms (submit_milestone gh exn_text pinfo) acc) w
       (acc ++ urls_from gh pinfo (gh_calls w) ms)%list
       (files w) (gh_calls w + List.length ms).
Proof.
  intros Hms Hp. revert acc w.
  induction Hms as [|m ms Hm Hms IH]; intros acc w.
  - cbn. rewrite app_nil_r, Nat.add_0_r. apply runs_ret.
  - cbn [for_each urls_from].
    eapply runs_bind; [by apply runs_submit_milestone|].
    intros w' Hf Hg. rewrite app_assoc, <- Hf, <- Hg.
    replace (gh_calls w + List.length (m :: ms))
      with (gh_calls w' + List.length ms) by (rewrite Hg; cbn; lia).
    apply IH.
Qed.
End Submission.

Lemma search_from_lit_absent (l : string) (r : regex) (s : string) (i : nat) :
  str_contains l s = false -> search_from (Cat (Lit l) r) i s = None.
Proof.
  revert i. induction s as [|a s IH]; intros i H; cbn [str_contains] in H.
  - apply orb_false_elim in H as [H _].
    cbn [search_from exec rest]. rewrite H. reflexivity.
  - apply orb_false_elim in H as [H1 H2].
    cbn [search_from exec rest]. rewrite H1. apply IH, H2.
Qed.

Lemma parse_content_project content :
  parse_content content !! "project" = Some (DStr (extracted project_re content)).
Proof.
  unfold parse_content, set_if_match, extracted.
  destruct (re_search project_re content), (re_search owner_re content),
    (re_search phases_re content), (re_search milestones_re content);
    by simplify_map_eq.
Qed.

Lemma parse_content_owner content :
  parse_content content !! "owner" = Some (DStr (extracted owner_re content)).
Proof.
  unfold parse_content, set_if_match, extracted.
  destruct (re_search project_re content), (re_search owner_re content),
    (re_search phases_re content), (re_search milestones_re content);
    by simplify_map_eq.
Qed.

Lemma parse_content_phases content :
  parse_content content !! "phases"
  = Some (DPhases (List.filter keep_phase
                     (List.map phase_of_block (document_phase_blocks content)))).
Proof.
  unfold parse_content, set_if_match, document_phase_blocks, phases_of_content.
  destruct (re_search project_re content), (re_search owner_re content),
    (re_search phases_re content), (re_search milestones_re content);
    by simplify_map_eq.
Qed.

Lemma parse_content_milestones content :
  parse_content content !! "milestones"
  = Some (DMilestones (List.filter keep_record
            (List.map milestone_of_block (document_milestone_blocks content)))).
Proof.
  unfold parse_content, set_if_match, document_milestone_blocks,
    milestones_of_content.
  destruct (re_search project_re content), (re_search owner_re content),
    (re_search phases_re content), (re_search milestones_re content);
    by simplify_map_eq.
Qed.

Lemma task_of_block_wf b : task_wf (task_of_block b).
Proof.
  unfold task_wf, task_of_block, set_if_match.
  destruct (re_search first_line_re b), (re_search (field_re "title:") b),
    (re_search description_re b); by simplify_map_eq.
Qed.

Lemma milestone_of_block_wf b : milestone_wf (milestone_of_block b).
Proof.
  unfold milestone_wf, milestone_of_block, set_if_match.
  destruct (re_search first_line_re b), (re_search (field_re "title:") b),
    (re_search (field_re "deliverables:") b), (re_search (field_re "date:") b);
    by simplify_map_eq.
Qed.

Lemma Forall_filter_map {X Y : Type} (P : Y -> Prop) (f : X -> Y) (keep : Y -> bool) l :
  (forall x, P (f x)) -> Forall P (List.filter keep (List.map f l)).
Proof.
  intros H. apply List.Forall_forall. intros y Hy.
  apply List.filter_In in Hy as [Hy _]. apply List.in_map_iff in Hy as (x & <- & _).
  apply H.
Qed.

Lemma phase_of_block_wf b : phase_wf (phase_of_block b).
Proof.
  unfold phase_wf, phase_of_block, set_if_match.
  destruct (re_search first_line_re b), (re_search (field_re "goal:") b),
    (re_search tasks_re b);
    do 3 eexists; (split_and!; [by simplify_map_eq..|]);
    first [apply Forall_nil_2 | apply Forall_filter_map, task_of_block_wf].
Qed.

Lemma model_phases_parse content :
  model_phases (parse_content content)
  = List.filter keep_phase (List.map phase_of_block (document_phase_blocks content)).
Proof. unfold model_phases. by rewrite parse_content_phases. Qed.

Lemma model_milestones_parse content :
  model_milestones (parse_content content)
  = List.filter keep_record
      (List.map milestone_of_block (document_milestone_blocks content)).
Proof. unfold model_milestones. by rewrite parse_content_milestones. Qed.

Lemma project_info_of_parse content :
  project_info_of (parse_content content) = Ok (document_info content).
Proof.
  unfold project_info_of.
  by rewrite parse_content_project, parse_content_owner.
Qed.

Lemma document_info_wf content : pinfo_wf (document_info content).
Proof. split; eexists; reflexivity. Qed.

Section MainRun.
Variable gh : nat -> list string -> CompletedProcess.
Variable exn_text : exn -> string.

Lemma runs_parse_yaml_tasks path content w :
  files w !! path = Some content ->
  runs (parse_yaml_tasks exn_text path) w (parse_content content)
       (files w) (gh_calls w).
Proof.
  intros H. exists [].
  unfold parse_yaml_tasks, try_Exception, bind, read_file. rewrite H.
  destruct w; cbn. by rewrite app_nil_r.
Qed.

Lemma runs_milestone_section pinfo ms w :
  Forall milestone_wf ms -> pinfo_wf pinfo ->
  runs (print (nl +:+ "Creating milestone issues...") ;;
        let* milestones := lift (Ok ms) in
        let* urls := create_milestone_issues gh exn_text milestones pinfo in
        ret (Some urls)) w
       (Some (urls_from gh pinfo (gh_calls w) ms))
       (files w) (gh_calls w + List.length ms).
Proof.
  intros Hms Hp.
  eapply runs_bind; [apply runs_print|]. intros w1 <- <-.
  eapply runs_bind; [apply runs_lift|]. intros w2 <- <-.
  eapply runs_bind; [by apply (runs_create_milestone_issues gh exn_text pinfo ms [])|].
  intros w3 <- <-. apply runs_ret.
Qed.

Lemma runs_main content w :
  files w !! "tasks.yaml" = Some content ->
  runs (main gh exn_text) w tt
    (<[summary_path :=
         json_dumps
           (summary_json (document_info content)
              (created_from gh (document_info content) (gh_calls w)
                 (model_tasks (parse_content content)))
              (urls_from gh (document_info content)
                 (gh_calls w + List.length (model_tasks (parse_content content)))
                 (model_milestones (parse_content content))))]> (files w))
    (gh_calls w + List.length (model_tasks (parse_content content))
     + List.length (model_milestones (parse_content content))).
Proof.
  intros Hfile. unfold main.
  eapply runs_bind; [by apply runs_parse_yaml_tasks|]. intros w1 <- <-.
  rewrite project_info_of_parse.
  eapply runs_bind; [apply runs_lift|]. intros w2 <- <-.
  eapply runs_bind; [apply runs_lift|]. intros w3 <- <-.
  eapply runs_bind; [apply runs_print|]. intros w4 <- <-.
  eapply runs_bind; [apply runs_lift|]. intros w5 <- <-.
  eapply runs_bind; [apply runs_print|]. intros w6 <- <-.
  eapply runs_bind; [apply runs_print|]. intros w7 <- <-.
  rewrite parse_content_phases. cbn [default as_phases].
  eapply runs_bind; [apply runs_lift|]. intros w8 <- <-.
  eapply runs_bind.
  { apply (runs_submit_phases gh exn_text (document_info content) _ [] w8).
    - apply Forall_filter_map, phase_of_block_wf.
    - apply document_info_wf. }
  intros w9 <- Hg9. cbn [app].
  unfold model_tasks. rewrite model_phases_parse, <- Hg9.
  rewrite model_milestones_parse, parse_content_milestones. cbn [as_milestones].
  eapply runs_bind.
  { apply runs_milestone_section.
    - apply Forall_filter_map, milestone_of_block_wf.
    - apply document_info_wf. }
  intros w13 <- <-.
  eapply runs_bind; [apply runs_print|]. intros w14 <- <-.
  eapply runs_bind; [apply runs_print|]. intros w15 <- <-.
  eapply runs_bind; [apply runs_print|]. intros w16 <- <-.
  cbn [default from_option id].
  eapply runs_bind; [apply runs_write|]. intros w17 <- <-.
  eapply runs_bind; [apply runs_print|]. intros w18 <- <-.
  apply runs_print.
Qed.
End MainRun.

Lemma run_script_completes gh exn_text content w :
  files w !! "tasks.yaml" = Some content ->
  exists log,
    run_script gh exn_text w
    = (0%Z,
       World
         (<[summary_path :=
              json_dumps
                (summary_json (document_info content)
                   (created_from gh (document_info content) (gh_calls w)
                      (model_tasks (parse_content content)))
                   (urls_from gh (document_info content)
                      (gh_calls w + List.length (model_tasks (parse_content content)))
                      (model_milestones (parse_content content))))]> (files w))
         (out w ++ log)%list
         (gh_calls w + List.length (model_tasks (parse_content content))
          + List.length (model_milestones (parse_content content)))).
Proof.
  intros H. destruct (runs_main gh exn_text content w H) as [log Hl].
  exists log. unfold run_script. by rewrite Hl.
Qed.

(** ** Labels and titles *)

Lemma prefix_app_l (a b s : string) :
  String.prefix (a +:+ b) s = true -> String.prefix a s = true.
Proof.
  revert s. induction a as [|x a IH]; intros s H.
  - by destruct s.
  - destruct s as [|y s]. { cbn in H. discriminate H. }
    change (String x a +:+ b) with (String x (a +:+ b)) in H.
    cbn [String.prefix] in H |- *.
    destruct (ascii_dec x y); [by apply IH | discriminate H].
Qed.

Lemma str_contains_app_l (a b s : string) :
  str_contains (a +:+ b) s = true -> str_contains a s = true.
Proof.
  induction s as [|y s IH]; cbn [str_contains]; intros H;
    apply orb_true_iff in H as [H|H]; apply orb_true_iff.
  - left. by eapply prefix_app_l.
  - done.
  - left. by eapply prefix_app_l.
  - right. by apply IH.
Qed.

Lemma issue_labels_first_match (phase_name : string) :
  issue_labels phase_name = "task" :: first_match epic_table phase_name.
Proof.
  unfold issue_labels, epic_table. cbn [first_match].
  repeat (destruct (str_contains _ phase_name); [reflexivity|]).
  reflexivity.
Qed.

Lemma first_match_earliest pre marker trio post phase_name :
  existsb (fun e => str_contains (fst e) phase_name) pre = false ->
  str_contains marker phase_name = true ->
  first_match (pre ++ (marker, trio) :: post) phase_name = trio.
Proof.
  induction pre as [|[mk tr] pre IH]; cbn [existsb app first_match fst];
    intros Hpre Hm.
  - by rewrite Hm.
  - apply orb_false_elim in Hpre as [-> Hpre]. by apply IH.
Qed.

(** C8.  The label lookup is the ordered table [epic_table] searched with
    the first match winning: the labels are the base label followed by the
    trio of the earliest marker, in table order, that occurs in the phase
    name.  A phase name containing "Epic 10" contains "Epic 1" and gets
    the labels task, epic-1, control-plane, api. *)
Theorem C8_first_match_wins (phase_name name10 : string)
    (pre post : list (string * list string)) (marker : string)
    (trio : list string)
    (Htable : epic_table = (pre ++ (marker, trio) :: post)%list)
    (Hearlier : existsb (fun e => str_contains (fst e) phase_name) pre = false)
    (Hmarker : str_contains marker phase_name = true)
    (H10 : str_contains "Epic 10" name10 = true) :
  issue_labels phase_name = "task" :: first_match epic_table phase_name
  /\ issue_labels phase_name = "task" :: trio
  /\ issue_labels name10 = ["task"; "epic-1"; "control-plane"; "api"].
Proof.
  split; [apply issue_labels_first_match|]. split.
  - rewrite issue_labels_first_match, Htable.
    by rewrite (first_match_earliest pre marker trio post).
  - unfold issue_labels.
    by rewrite (str_contains_app_l "Epic 1" "0" name10 H10).
Qed.

Lemma C8_first_match_wins_witness :
  issue_labels "Epic 2 before Epic 5"
  = ["task"; "epic-2"; "node-runtime"; "connectors"]
  /\ issue_labels "Epic 10 - Later work"
     = ["task"; "epic-1"; "control-plane"; "api"].
Proof.
  pose proof (C8_first_match_wins "Epic 2 before Epic 5" "Epic 10 - Later work"
    [("Epic 1", ["epic-1"; "control-plane"; "api"])]
    [ ("Epic 3", ["epic-3"; "agent-definition"; "deployment"]);
      ("Epic 4", ["epic-4"; "observability"; "monitoring"]);
      ("Epic 5", ["epic-5"; "ui"; "frontend"]);
      ("Epic 6", ["epic-6"; "infrastructure"; "ci-cd"]);
      ("Epic 7", ["epic-7"; "testing"; "validation"]);
      ("Epic 8", ["epic-8"; "documentation"; "demo"]) ]
    "Epic 2" ["epic-2"; "node-runtime"; "connectors"]
    eq_refl eq_refl eq_refl eq_refl) as (_ & H2 & H10).
  split; assumption.
Defined.

(** C3 as stated fails: a phase name can contain "Epic 3" after an
    earlier marker. *)
Lemma C3_counterexample :
  str_contains "Epic 3" "Epic 1 hand-over to Epic 3" = true
  /\ issue_labels "Epic 1 hand-over to Epic 3"
     = ["task"; "epic-1"; "control-plane"; "api"]
  /\ issue_labels "Epic 1 hand-over to Epic 3"
     <> ["task"; "epic-3"; "agent-definition"; "deployment"].
Proof. split; [reflexivity|]. split; [reflexivity|]. discriminate. Qed.

(** C3 (amended).  A phase name that contains "Epic 3" and neither
    "Epic 1" nor "Epic 2" gets exactly task, epic-3, agent-definition,
    deployment; a phase name containing none of the eight markers gets
    exactly task; every milestone is submitted with the labels
    milestone,epic. *)
Theorem C3_label_mapping (name3 plain : string)
    (milestone : gmap string string) (project_info : list (string * string))
    (cmd : list string)
    (H3 : str_contains "Epic 3" name3 = true)
    (H1 : str_contains "Epic 1" name3 = false)
    (H2 : str_contains "Epic 2" name3 = false)
    (Hplain : existsb (fun e => str_contains (fst e) plain) epic_table = false)
    (Hcmd : milestone_cmd milestone project_info = Ok cmd) :
  issue_labels name3 = ["task"; "epic-3"; "agent-definition"; "deployment"]
  /\ issue_labels plain = ["task"]
  /\ exists title body, cmd = gh_issue_create title body "milestone,epic".
Proof.
  split; [|split].
  - unfold issue_labels. by rewrite H1, H2, H3.
  - unfold epic_table in Hplain. cbn [existsb fst] in Hplain.
    repeat (apply orb_false_elim in Hplain as [? Hplain]).
    unfold issue_labels.
    repeat match goal with H : str_contains _ plain = false |- _ =>
             rewrite H; clear H end.
    reflexivity.
  - unfold milestone_cmd in Hcmd.
    destruct (milestone_title milestone) as [title|]; [|done].
    destruct (milestone_body milestone project_info) as [body|]; [|done].
    cbn in Hcmd. injection Hcmd as <-. by exists title, body.
Qed.

Lemma C3_label_mapping_witness :
  issue_labels "Epic 3 - Agent Definition & Deployment Flow"
  = ["task"; "epic-3"; "agent-definition"; "deployment"]
  /\ issue_labels "Backlog" = ["task"].
Proof.
  destruct (milestone_cmd sample_milestone sample_info) as [cmd|e] eqn:Hcmd;
    [|discriminate Hcmd].
  pose proof (C3_label_mapping "Epic 3 - Agent Definition & Deployment Flow"
                "Backlog" sample_milestone sample_info cmd
                eq_refl eq_refl eq_refl eq_refl Hcmd) as (H3 & H0 & _).
  split; assumption.
Defined.

(** C4.  The title of a task issue is the record id in square brackets, a
    space and the record title; the title of a milestone issue is
    [MILESTONE], a space and the record title. *)
Theorem C4_title_format (task milestone : gmap string string)
    (i t mt : string)
    (Hid : task !! "id" = Some i) (Htitle : task !! "title" = Some t)
    (Hmt : milestone !! "title" = Some mt) :
  issue_title task = Ok ("[" +:+ i +:+ "] " +:+ t)
  /\ milestone_title milestone = Ok ("[MILESTONE] " +:+ mt).
Proof.
  unfold issue_title, milestone_title, getitem.
  by rewrite Hid, Htitle, Hmt.
Qed.

Lemma C4_title_format_witness :
  issue_title sample_task = Ok "[E2-T4] Build connector"
  /\ milestone_title sample_milestone = Ok "[MILESTONE] Phase 1 complete".
Proof.
  exact (C4_title_format sample_task sample_milestone
           "E2-T4" "Build connector" "Phase 1 complete"
           eq_refl eq_refl eq_refl).
Defined.

(** C5.  When tasks.yaml is missing the process ends with status 1 after
    printing one error line; the files are left as they were, so no
    summary is written, and [gh] is never invoked. *)
Theorem C5_missing_input_is_fatal (gh : nat -> list string -> CompletedProcess)
    (exn_text : exn -> string) (w : world)
    (Hmissing : files w !! "tasks.yaml" = None) :
  run_script gh exn_text w
  = (1%Z,
     World (files w)
           (out w ++ ["Error loading tasks file: [Errno 2] No such file or directory: 'tasks.yaml'"])%list
           (gh_calls w))
  /\ fst (run_script gh exn_text w) <> 0%Z
  /\ files (snd (run_script gh exn_text w)) !! summary_path
     = files w !! summary_path.
Proof.
  assert (run_script gh exn_text w
          = (1%Z, World (files w)
                    (out w ++ ["Error loading tasks file: [Errno 2] No such file or directory: 'tasks.yaml'"])%list
                    (gh_calls w))) as ->.
  { unfold run_script, main, bind at 1, parse_yaml_tasks, try_Exception,
      bind at 1, read_file.
    rewrite Hmissing. reflexivity. }
  split; [reflexivity|]. split; [discriminate|reflexivity].
Qed.

Lemma C5_missing_input_is_fatal_witness :
  fst (run_script always_ok (fun _ => "") (World ∅ [] 0)) = 1%Z.
Proof.
  assert (Hmissing : files (World ∅ [] 0) !! "tasks.yaml" = None)
    by (vm_compute; reflexivity).
  destruct (C5_missing_input_is_fatal always_ok (fun _ => "") (World ∅ [] 0)
              Hmissing) as [H _].
  rewrite H. reflexivity.
Defined.

(** ** The extracted model *)

Lemma truthy_true (s : string) : truthy s = true <-> s <> "".
Proof. destruct s; cbn; split; congruence. Qed.

Lemma keep_record_iff (d : gmap string string) :
  keep_record d = true <-> field d "id" <> "" /\ field d "title" <> "".
Proof.
  unfold keep_record. rewrite andb_true_iff, !truthy_true. reflexivity.
Qed.

Lemma keep_phase_iff (p : gmap string phase_val) :
  keep_phase p = true <-> pfield p "name" <> "".
Proof. unfold keep_phase. apply truthy_true. Qed.

Lemma phase_tasks_of_block (pb : string) :
  phase_tasks (phase_of_block pb)
  = List.filter keep_record (List.map task_of_block (phase_task_blocks pb)).
Proof.
  unfold phase_tasks, phase_of_block, phase_task_blocks, set_if_match,
    tasks_of_content.
  destruct (re_search first_line_re pb), (re_search (field_re "goal:") pb),
    (re_search tasks_re pb); by simplify_map_eq.
Qed.

Lemma milestone_of_block_no_description (b : string) :
  milestone_of_block b !! "description" = None.
Proof.
  unfold milestone_of_block, set_if_match.
  destruct (re_search first_line_re b), (re_search (field_re "title:") b),
    (re_search (field_re "deliverables:") b), (re_search (field_re "date:") b);
    by simplify_map_eq.
Qed.

Lemma in_model_phases content p :
  In p (model_phases (parse_content content)) <->
  exists pb, In pb (document_phase_blocks content)
             /\ p = phase_of_block pb /\ pfield p "name" <> "".
Proof.
  rewrite model_phases_parse, List.filter_In, List.in_map_iff, keep_phase_iff.
  split.
  - intros [(pb & <- & Hpb) Hn]. by exists pb.
  - intros (pb & Hpb & -> & Hn). split; [by exists pb | done].
Qed.

Lemma in_model_milestones content m :
  In m (model_milestones (parse_content content)) <->
  exists b, In b (document_milestone_blocks content)
            /\ m = milestone_of_block b
            /\ field m "id" <> "" /\ field m "title" <> "".
Proof.
  rewrite model_milestones_parse, List.filter_In, List.in_map_iff,
    keep_record_iff.
  split.
  - intros [(b & <- & Hb) Hn]. by exists b.
  - intros (b & Hb & -> & Hn). split; [by exists b | done].
Qed.

Lemma in_model_tasks content pn t :
  In (pn, t) (model_tasks (parse_content content)) <->
  exists pb tb,
    In pb (document_phase_blocks content) /\ In tb (phase_task_blocks pb)
    /\ t = task_of_block tb /\ pn = pfield (phase_of_block pb) "name"
    /\ (field t "id" <> "" /\ field t "title" <> "") /\ pn <> "".
Proof.
  unfold model_tasks, tasks_of_phases.
  rewrite List.in_flat_map. split.
  - intros (p & Hp & Hin). apply in_model_phases in Hp as (pb & Hpb & -> & Hn).
    rewrite phase_tasks_of_block in Hin.
    apply List.in_map_iff in Hin as (t' & [= <- <-] & Ht).
    apply List.filter_In in Ht as [Ht Hk].
    apply List.in_map_iff in Ht as (tb & <- & Htb).
    apply keep_record_iff in Hk. by exists pb, tb.
  - intros (pb & tb & Hpb & Htb & -> & -> & Hk & Hn).
    exists (phase_of_block pb). split.
    + apply in_model_phases. by exists pb.
    + rewrite phase_tasks_of_block. apply List.in_map.
      apply List.filter_In. split; [by apply List.in_map|].
      by apply keep_record_iff.
Qed.

Lemma re_search_absent (lit : string) (r : regex) (s : string) :
  str_contains lit s = false -> re_search (Cat (Lit lit) r) s = None.
Proof. apply search_from_lit_absent. Qed.

Lemma task_description_default (tb : string) :
  str_contains "description:" tb = false ->
  task_of_block tb !! "description" = Some "".
Proof.
  intros H. unfold task_of_block, description_re.
  rewrite (re_search_absent _ _ _ H). unfold set_if_match.
  destruct (re_search first_line_re tb), (re_search (field_re "title:") tb);
    by simplify_map_eq.
Qed.

Lemma milestone_deliverables_default (b : string) :
  str_contains "deliverables:" b = false ->
  milestone_of_block b !! "deliverables" = Some "".
Proof.
  intros H. unfold milestone_of_block, field_re.
  rewrite (re_search_absent "deliverables:" _ _ H). fold (field_re "title:").
  fold (field_re "date:"). unfold set_if_match.
  destruct (re_search first_line_re b), (re_search (field_re "title:") b),
    (re_search (field_re "date:") b); by simplify_map_eq.
Qed.

Lemma milestone_date_default (b : string) :
  str_contains "date:" b = false ->
  milestone_of_block b !! "date" = Some "".
Proof.
  intros H. unfold milestone_of_block, field_re.
  rewrite (re_search_absent "date:" _ _ H). fold (field_re "title:").
  fold (field_re "deliverables:"). unfold set_if_match.
  destruct (re_search first_line_re b), (re_search (field_re "title:") b),
    (re_search (field_re "deliverables:") b); by simplify_map_eq.
Qed.


(** C2, evaluated where the code departs from it.  The task E2-T1 and the
    milestone M1 of [demo_doc] are records of the document with an id and
    a title; E2-T1 belongs to a phase that is retained.  Neither is in the
    extracted model: each is the first record of its section and lies in
    piece 0 of the split, which the loop skips. *)
Theorem C2_first_record_is_dropped :
  str_contains ("      - id:" +:+ first_task_block +:+ nl) demo_doc = true
  /\ str_contains ("  - id:" +:+ first_milestone_block +:+ nl) demo_doc = true
  /\ field (task_of_block first_task_block) "id" = "E2-T1"
  /\ field (task_of_block first_task_block) "title" = "Node runtime skeleton"
  /\ field (milestone_of_block first_milestone_block) "id" = "M1"
  /\ field (milestone_of_block first_milestone_block) "title"
     = "Phase 1 complete"
  /\ List.map (fun p => pfield p "name") (model_phases (parse_content demo_doc))
     = ["Epic 2 - Node Runtime & Connectors"]
  /\ List.map (fun pt => (fst pt, field (snd pt) "id"))
       (model_tasks (parse_content demo_doc))
     = [ ("Epic 2 - Node Runtime & Connectors", "E2-T2");
         ("Epic 2 - Node Runtime & Connectors", "E2-T3");
         ("Epic 2 - Node Runtime & Connectors", "E2-T4") ]
  /\ List.map (fun m => field m "id") (model_milestones (parse_content demo_doc))
     = ["M2"].
Proof. vm_compute. repeat split. Qed.

(** C7, evaluated where the code departs from it: the first phase of a
    document has a name and is not retained, because it lies in piece 0 of
    the split, which the loop skips. *)
Theorem C7_first_phase_is_skipped :
  str_contains "  - name: Epic 1 - Control Plane Foundations" anonymous_doc = true
  /\ model_phases (parse_content anonymous_doc) = []
  /\ document_phase_blocks anonymous_doc = []
  /\ List.map (fun p => pfield p "name") (model_phases (parse_content demo_doc))
     = ["Epic 2 - Node Runtime & Connectors"].
Proof. vm_compute. repeat split. Qed.

(** ** Milestone bodies and the project context *)

(** C9.  No milestone of the extracted model has a description key, so the
    overview of its issue body is always the placeholder, whatever the
    document says. *)
Theorem C9_milestone_overview_placeholder (content : string)
    (m : gmap string string)
    (Hin : In m (model_milestones (parse_content content))) :
  m !! "description" = None
  /\ milestone_overview m = "Milestone for project phase completion"
  /\ exists rest,
       milestone_body m (document_info content)
       = Ok ("## Milestone Overview" +:+ nl
               +:+ "Milestone for project phase completion" +:+ nl +:+ rest).
Proof.
  apply in_model_milestones in Hin as (b & _ & -> & _).
  pose proof (milestone_of_block_no_description b) as Hnone.
  split; [exact Hnone|]. split.
  - unfold milestone_overview. by rewrite Hnone.
  - destruct (milestone_of_block_wf b)
      as ([i Hi] & _ & [d Hd] & [da Hda]).
    unfold milestone_body, milestone_overview, getitem, getitem_o.
    rewrite Hnone, Hi, Hd, Hda. cbn [default rbind assoc document_info].
    cbn [String.eqb Ascii.eqb Bool.eqb]. cbn [rbind join].
    eexists. reflexivity.
Qed.

Lemma C9_milestone_overview_placeholder_witness :
  milestone_overview
    {[ "id" := "M2"; "title" := "Phase 2 complete";
       "deliverables" := "Node runtime"; "date" := "2026-01-15" ]}
  = "Milestone for project phase completion".
Proof.
  refine (proj1 (proj2 (C9_milestone_overview_placeholder demo_doc _ _))).
  vm_compute. left. reflexivity.
Defined.

(** C10.  The extractor always stores a string under project and under
    owner, so [main] never falls back to Unknown Project or Unknown Owner;
    a document with no project: (owner:) text gives the empty string for
    that field, in the context used for the bodies and in the summary. *)
Theorem C10_fallbacks_unreachable (content : string) :
  exists project owner,
    parse_content content !! "project" = Some (DStr project)
    /\ parse_content content !! "owner" = Some (DStr owner)
    /\ project_info_of (parse_content content)
       = Ok [ ("project", project); ("owner", owner) ]
    /\ document_info content = [ ("project", project); ("owner", owner) ]
    /\ (str_contains "project:" content = false -> project = "")
    /\ (str_contains "owner:" content = false -> owner = "")
    /\ (forall gh exn_text w,
           files w !! "tasks.yaml" = Some content ->
           exists created urls w',
             run_script gh exn_text w = (0%Z, w')
             /\ files w' !! summary_path
                = Some (json_dumps
                          (summary_json [ ("project", project); ("owner", owner) ]
                             created urls))).
Proof.
  exists (extracted project_re content), (extracted owner_re content).
  split_and!; cycle 6.
  { intros gh exn_text w Hfile.
    destruct (run_script_completes gh exn_text content w Hfile) as [log Hrun].
    do 3 eexists. split; [exact Hrun|].
    cbn [files]. apply lookup_insert_eq. }
  - apply parse_content_project.
  - apply parse_content_owner.
  - apply project_info_of_parse.
  - reflexivity.
  - intros H. unfold extracted, project_re, field_re.
    by rewrite (re_search_absent _ _ _ H).
  - intros H. unfold extracted, owner_re, field_re.
    by rewrite (re_search_absent _ _ _ H).
Qed.

Lemma C10_fallbacks_unreachable_witness :
  project_info_of (parse_content anonymous_doc)
  = Ok [ ("project", ""); ("owner", "") ].
Proof.
  destruct (C10_fallbacks_unreachable anonymous_doc)
    as (p & o & _ & _ & Hinfo & _ & Hp & Ho & _).
  rewrite Hinfo, Hp, Ho; [reflexivity | vm_compute; reflexivity..].
Defined.

(** ** The run as a whole *)







(** * Further properties *)

(** ** Further properties of the run *)

Lemma milestone_cmd_wf m info :
  milestone_wf m -> pinfo_wf info ->
  exists cmd, milestone_cmd m info = Ok cmd.
Proof.
  intros ([i Hi] & [ti Ht] & [d Hd] & [da Hda]) ([p Hp] & [o Ho]).
  unfold milestone_cmd, milestone_title, milestone_body, getitem, getitem_o.
  rewrite Hi, Ht, Hd, Hda, Hp, Ho. cbn [rbind]. eauto.
Qed.

Lemma model_milestones_wf content :
  Forall milestone_wf (model_milestones (parse_content content)).
Proof.
  rewrite model_milestones_parse. apply Forall_filter_map, milestone_of_block_wf.
Qed.





Lemma urls_from_blank gh info n ms :
  Forall milestone_wf ms -> pinfo_wf info ->
  (forall k cmd, returncode (gh k cmd) = 0%Z
                 /\ strip (cp_stdout (gh k cmd)) = "") ->
  urls_from gh info n ms = List.map (fun _ => "") ms.
Proof.
  intros Hms Hinfo Hblank. revert n.
  induction Hms as [|m ms Hm Hms IH]; intros n; [reflexivity|].
  cbn [urls_from List.map]. rewrite IH. unfold milestone_url, created_url.
  destruct (milestone_cmd_wf m info Hm Hinfo) as [cmd ->].
  by destruct (Hblank n cmd) as [-> ->].
Qed.

Lemma created_from_blank gh info n pts :
  (forall k cmd, returncode (gh k cmd) = 0%Z
                 /\ strip (cp_stdout (gh k cmd)) = "") ->
  created_from gh info n pts = [].
Proof.
  intros Hblank. revert n. induction pts as [|pt pts IH]; intros n; [reflexivity|].
  cbn [created_from]. rewrite IH, app_nil_r. unfold task_record, created_url.
  destruct (issue_cmd _ _ _) as [cmd|]; [|reflexivity].
  by destruct (Hblank n cmd) as [-> ->].
Qed.

(** X2.  The two loops treat a blank reference differently.  When [gh]
    exits with status 0 and prints only white space, the task loop records
    nothing ([if issue_url:]), whereas the milestone loop appends the
    empty string for every milestone. *)
Theorem blank_reference_is_kept_for_milestones_only
    (gh : nat -> list string -> CompletedProcess)
    (exn_text : exn -> string) (content : string) (w : world)
    (Hfile : files w !! "tasks.yaml" = Some content)
    (Hblank : forall k cmd, returncode (gh k cmd) = 0%Z
                            /\ strip (cp_stdout (gh k cmd)) = "") :
  exists w',
    run_script gh exn_text w = (0%Z, w')
    /\ files w' !! summary_path
       = Some (json_dumps
                 (summary_json (document_info content) []
                    (List.map (fun _ => "")
                       (model_milestones (parse_content content))))).
Proof.
  destruct (run_script_completes gh exn_text content w Hfile) as [log Hrun].
  rewrite (created_from_blank gh _ _ _ Hblank) in Hrun.
  rewrite (urls_from_blank gh _ _ _ (model_milestones_wf content)
             (document_info_wf content) Hblank) in Hrun.
  eexists. split; [exact Hrun|]. cbn [files]. apply lookup_insert_eq.
Qed.

Lemma blank_reference_is_kept_for_milestones_only_witness :
  files (snd (run_script prints_blank (fun _ => "") demo_world)) !! summary_path
  = Some (json_dumps (summary_json sample_info [] [""])).
Proof.
  assert (Hfile : files demo_world !! "tasks.yaml" = Some demo_doc)
    by (vm_compute; reflexivity).
  assert (Hblank : forall k cmd,
             returncode (prints_blank k cmd) = 0%Z
             /\ strip (cp_stdout (prints_blank k cmd)) = "")
    by (intros k cmd; split; reflexivity).
  destruct (blank_reference_is_kept_for_milestones_only prints_blank
              (fun _ => "") demo_doc demo_world Hfile Hblank)
    as (w' & Hrun & Hsummary).
  rewrite Hrun. cbn [snd]. rewrite Hsummary. vm_compute. reflexivity.
Defined.

(** X3.  Nothing remembers an earlier run.  Running the script a second
    time on the world the first run left submits every record again and
    replaces the summary by the records of the second run alone. *)
Theorem second_run_submits_everything_again
    (gh : nat -> list string -> CompletedProcess)
    (exn_text : exn -> string) (content : string) (w : world)
    (Hfile : files w !! "tasks.yaml" = Some content) :
  let model := parse_content content in
  let info := document_info content in
  let per_run :=
    List.length (model_tasks model) + List.length (model_milestones model) in
  exists w1 w2,
    run_script gh exn_text w = (0%Z, w1)
    /\ run_script gh exn_text w1 = (0%Z, w2)
    /\ gh_calls w1 = gh_calls w + per_run
    /\ gh_calls w2 = gh_calls w + per_run + per_run
    /\ files w2 !! summary_path
       = Some (json_dumps
                 (summary_json info
                    (created_from gh info (gh_calls w + per_run)
                       (model_tasks model))
                    (urls_from gh info
                       (gh_calls w + per_run + List.length (model_tasks model))
                       (model_milestones model)))).
Proof.
  cbv zeta.
  destruct (run_script_completes gh exn_text content w Hfile) as [log1 Hrun1].
  match type of Hrun1 with _ = (_, ?x) => set (w1 := x) in * end.
  assert (Hfile1 : files w1 !! "tasks.yaml" = Some content).
  { subst w1. cbn [files]. by rewrite lookup_insert_ne. }
  destruct (run_script_completes gh exn_text content w1 Hfile1) as [log2 Hrun2].
  exists w1. eexists. split; [exact Hrun1|]. split; [exact Hrun2|].
  subst w1. cbn [gh_calls files]. split; [lia|]. split; [lia|].
  rewrite lookup_insert_eq. do 4 f_equal; lia.
Qed.

Lemma second_run_submits_everything_again_witness :
  gh_calls (snd (run_script always_ok (fun _ => "")
                   (snd (run_script always_ok (fun _ => "") demo_world)))) = 8.
Proof.
  assert (Hfile : files demo_world !! "tasks.yaml" = Some demo_doc)
    by (vm_compute; reflexivity).
  destruct (second_run_submits_everything_again always_ok (fun _ => "")
              demo_doc demo_world Hfile)
    as (w1 & w2 & Hrun1 & Hrun2 & _ & Hcalls & _).
  rewrite Hrun1. cbn [snd]. rewrite Hrun2. cbn [snd]. rewrite Hcalls.
  vm_compute. reflexivity.
Defined.

(** X4.  A document with neither a phases: nor a milestones: text (the
    empty file among them) is not an error: the model has no phase and no
    milestone, the milestones key is present all the same, [gh] is never
    invoked and the summary is written with two empty lists. *)
Theorem document_without_sections
    (gh : nat -> list string -> CompletedProcess)
    (exn_text : exn -> string) (content : string) (w : world)
    (Hfile : files w !! "tasks.yaml" = Some content)
    (Hphases : str_contains "phases:" content = false)
    (Hmilestones : str_contains "milestones:" content = false) :
  parse_content content !! "phases" = Some (DPhases [])
  /\ parse_content content !! "milestones" = Some (DMilestones [])
  /\ exists w',
       run_script gh exn_text w = (0%Z, w')
       /\ gh_calls w' = gh_calls w
       /\ files w' !! summary_path
          = Some (json_dumps (summary_json (document_info content) [] [])).
Proof.
  assert (Hp : document_phase_blocks content = []).
  { unfold document_phase_blocks, phases_re.
    by rewrite (re_search_absent _ _ _ Hphases). }
  assert (Hm : document_milestone_blocks content = []).
  { unfold document_milestone_blocks, milestones_re.
    by rewrite (re_search_absent _ _ _ Hmilestones). }
  split; [by rewrite parse_content_phases, Hp|].
  split; [by rewrite parse_content_milestones, Hm|].
  destruct (run_script_completes gh exn_text content w Hfile) as [log Hrun].
  unfold model_tasks in Hrun.
  rewrite model_phases_parse, model_milestones_parse, Hp, Hm in Hrun.
  cbn [List.map List.filter tasks_of_phases flat_map List.length
         created_from urls_from] in Hrun.
  rewrite !Nat.add_0_r in Hrun.
  eexists. split; [exact Hrun|]. split; [reflexivity|].
  cbn [files]. apply lookup_insert_eq.
Qed.

Lemma document_without_sections_witness :
  fst (run_script always_ok (fun _ => "") (World {[ "tasks.yaml" := "" ]} [] 0))
  = 0%Z
  /\ gh_calls (snd (run_script always_ok (fun _ => "")
                      (World {[ "tasks.yaml" := "" ]} [] 0))) = 0.
Proof.
  assert (Hfile : files (World {[ "tasks.yaml" := "" ]} [] 0) !! "tasks.yaml"
                  = Some "") by (vm_compute; reflexivity).
  destruct (document_without_sections always_ok (fun _ => "") ""
              (World {[ "tasks.yaml" := "" ]} [] 0) Hfile eq_refl eq_refl)
    as (_ & _ & w' & Hrun & Hcalls & _).
  rewrite Hrun. cbn [fst snd]. split; [reflexivity | exact Hcalls].
Defined.

(** X5.  Whenever one of the script's patterns matches a text, group 1
    took part in the match: [m.group(1)] is a string, never [None], so the
    [.strip()] that follows every match cannot fail. *)
Theorem matched_pattern_has_group (r : regex) (s : string) (m : rmatch)
    (Hr : In r script_patterns) (Hm : re_search r s = Some m) :
  exists g, m_group m = Some g /\ group1 m = g.
Proof.
  assert (Hs : sets_group r = true).
  { pose proof patterns_set_group as Hall.
    rewrite List.Forall_forall in Hall. by apply Hall. }
  destruct (re_search_group r s m Hs Hm) as [g Hg].
  exists g. split; [exact Hg|]. unfold group1. by rewrite Hg.
Qed.

Lemma matched_pattern_has_group_witness :
  exists g, m_group (RMatch 0 13 (Some "Demo")) = Some g
            /\ group1 (RMatch 0 13 (Some "Demo")) = g.
Proof.
  apply (matched_pattern_has_group project_re "project: Demo").
  - left. reflexivity.
  - vm_compute. reflexivity.
Defined.

(** ** White space *)

Lemma rstrip_cons (a : ascii) (s : string) :
  rstrip (String a s)
  = match rstrip s with
    | EmptyString => if isspace a then EmptyString else String a EmptyString
    | r => String a r
    end.
Proof. reflexivity. Qed.

Lemma rstrip_idem (s : string) : rstrip (rstrip s) = rstrip s.
Proof.
  induction s as [|a s IH]; [reflexivity|]. rewrite rstrip_cons.
  destruct (rstrip s) as [|b r] eqn:E.
  - destruct (isspace a) eqn:Ea; [reflexivity|].
    rewrite rstrip_cons. cbn [rstrip]. by rewrite Ea.
  - rewrite rstrip_cons, IH. reflexivity.
Qed.

Lemma lstrip_head (s : string) :
  lstrip s = "" \/ exists a t, lstrip s = String a t /\ isspace a = false.
Proof.
  induction s as [|a s IH]; [by left|]. cbn [lstrip].
  destruct (isspace a) eqn:Ea; [exact IH | right; eauto].
Qed.

Lemma rstrip_head (a : ascii) (s : string) :
  isspace a = false -> exists t, rstrip (String a s) = String a t.
Proof.
  intros Ea. rewrite rstrip_cons. destruct (rstrip s); rewrite ?Ea; eauto.
Qed.

Lemma strip_idem (s : string) : strip (strip s) = strip s.
Proof.
  unfold strip. destruct (lstrip_head s) as [->|(a & t & -> & Ea)];
    [reflexivity|].
  destruct (rstrip_head a t Ea) as [u Hu]. rewrite Hu.
  cbn [lstrip]. rewrite Ea, <- Hu. apply rstrip_idem.
Qed.

Lemma lstrip_all p s : str_all p s = true -> str_all p (lstrip s) = true.
Proof.
  induction s as [|a s IH]; [done|]. cbn [lstrip str_all]. intros H.
  destruct (isspace a); [|exact H].
  apply andb_true_iff in H as [_ H]. by apply IH.
Qed.

Lemma rstrip_all p s : str_all p s = true -> str_all p (rstrip s) = true.
Proof.
  induction s as [|a s IH]; [done|]. rewrite rstrip_cons. cbn [str_all].
  intros H. apply andb_true_iff in H as [Ha H]. specialize (IH H).
  destruct (rstrip s) as [|b r].
  - destruct (isspace a); [done|]. cbn. by rewrite Ha.
  - cbn [str_all] in *. by rewrite Ha, IH.
Qed.

Lemma strip_all p s : str_all p s = true -> str_all p (strip s) = true.
Proof. intros H. by apply rstrip_all, lstrip_all. Qed.

(** ** What the matcher hands to its continuation *)

(** A starred character class only moves over characters of the class. *)
Lemma exec_star_cls (p : ascii -> bool) k c c' :
  exec (Star (Cls p)) k c = Some c' ->
  exists t d, rest c = t +:+ rest d /\ pos d = pos c + String.length t
              /\ grp d = grp c /\ str_all p t = true /\ k d = Some c'.
Proof.
  cbn [exec]. remember (String.length (rest c)) as fuel eqn:Hf. clear Hf.
  revert c. induction fuel as [|fuel IH]; intros c H.
  - exists "", c. cbn. by rewrite Nat.add_0_r.
  - destruct (rest c) as [|a s] eqn:Hrest.
    + exists "", c. cbn. by rewrite Nat.add_0_r, Hrest.
    + destruct (p a) eqn:Hp.
      * cbn [pos] in H.
        replace (pos c <? S (pos c))%nat with true in H
          by (symmetry; apply Nat.ltb_lt; lia).
        match type of H with
        | match ?x with _ => _ end = _ => destruct x as [c1|] eqn:E
        end.
        -- injection H as ->. apply IH in E as (t & d & Hr & Hpos & Hg & Ht & Hk).
           cbn [rest pos grp] in *. exists (String a t), d.
           split_and!; [by rewrite Hr | cbn; lia | done | by cbn; rewrite Hp | done].
        -- exists "", c. cbn. by rewrite Nat.add_0_r, Hrest.
      * exists "", c. cbn. by rewrite Nat.add_0_r, Hrest.
Qed.

Lemma str_take_app (t s : string) : str_take (String.length t) (t +:+ s) = t.
Proof.
  induction t as [|a t IH]; [by destruct s|].
  change (String a t +:+ s) with (String a (t +:+ s)).
  cbn [String.length str_take]. by rewrite IH.
Qed.

(** The group [([^\n]+)] captures a non-empty text without a newline. *)
Lemma exec_group_line k c c' :
  exec (Group (Plus not_nl)) k c = Some c' ->
  exists g d, k d = Some c' /\ grp d = Some g
              /\ str_all (fun a => negb (is_newline a)) g = true.
Proof.
  cbn [exec Plus not_nl].
  destruct (rest c) as [|a s] eqn:Hrest; [discriminate|].
  destruct (negb (is_newline a)) eqn:Ha; [|discriminate].
  intros H. apply exec_star_cls in H as (t & d & Hr & Hpos & _ & Ht & Hk).
  cbn [rest pos] in *. eexists _, _. split; [exact Hk|]. cbn [grp].
  split; [reflexivity|].
  replace (pos d - pos c) with (String.length (String a t)) by (cbn; lia).
  rewrite Hr. change (String a (t +:+ rest d)) with (String a t +:+ rest d).
  rewrite str_take_app. cbn [str_all]. by rewrite Ha, Ht.
Qed.

Lemma exec_cat r1 r2 k c : exec (Cat r1 r2) k c = exec r1 (exec r2 k) c.
Proof. reflexivity. Qed.

Lemma exec_field_re_line key c c' :
  exec (field_re key) Some c = Some c' ->
  exists g, grp c' = Some g /\ one_line g.
Proof.
  unfold field_re. rewrite exec_cat. intros E.
  apply exec_continues in E as (c1 & E & _). rewrite exec_cat in E.
  apply exec_continues in E as (c2 & E & _).
  apply exec_group_line in E as (g & d & [= ->] & Hg & Hall). eauto.
Qed.

Lemma exec_first_line_re_line c c' :
  exec first_line_re Some c = Some c' ->
  exists g, grp c' = Some g /\ one_line g.
Proof.
  unfold first_line_re. rewrite exec_cat. intros E.
  apply exec_continues in E as (c1 & E & _).
  apply exec_group_line in E as (g & d & [= ->] & Hg & Hall). eauto.
Qed.

Lemma extracted_one_line (r : regex) (s : string) :
  (forall c c', exec r Some c = Some c' ->
                exists g, grp c' = Some g /\ one_line g) ->
  one_line (extracted r s).
Proof.
  intros Hr. unfold extracted, re_search. generalize 0%nat as i.
  induction s as [|a s IH]; intros i; cbn [search_from].
  - destruct (exec r Some _) as [c'|] eqn:E; [|done].
    apply Hr in E as (g & Hg & Hall).
    unfold group1. cbn [m_group]. rewrite Hg. by apply strip_all.
  - destruct (exec r Some _) as [c'|] eqn:E; [|apply IH].
    apply Hr in E as (g & Hg & Hall).
    unfold group1. cbn [m_group]. rewrite Hg. by apply strip_all.
Qed.

Lemma extracted_field_one_line key s : one_line (extracted (field_re key) s).
Proof. apply extracted_one_line, exec_field_re_line. Qed.

Lemma extracted_first_line_one_line s : one_line (extracted first_line_re s).
Proof. apply extracted_one_line, exec_first_line_re_line. Qed.

(** ** The strings of the extracted model *)

Lemma task_of_block_fields tb k :
  task_of_block tb !! k
  = if String.eqb k "id" then Some (extracted first_line_re tb)
    else if String.eqb k "title" then Some (extracted (field_re "title:") tb)
    else if String.eqb k "description" then Some (extracted description_re tb)
    else None.
Proof.
  unfold task_of_block, set_if_match, extracted.
  destruct (String.eqb_spec k "id") as [->|H1];
    [|destruct (String.eqb_spec k "title") as [->|H2];
      [|destruct (String.eqb_spec k "description") as [->|H3]]];
    destruct (re_search first_line_re tb), (re_search (field_re "title:") tb),
      (re_search description_re tb); by simplify_map_eq.
Qed.

Lemma milestone_of_block_fields b k :
  milestone_of_block b !! k
  = if String.eqb k "id" then Some (extracted first_line_re b)
    else if String.eqb k "title" then Some (extracted (field_re "title:") b)
    else if String.eqb k "deliverables"
         then Some (extracted (field_re "deliverables:") b)
    else if String.eqb k "date" then Some (extracted (field_re "date:") b)
    else None.
Proof.
  unfold milestone_of_block, set_if_match, extracted.
  destruct (String.eqb_spec k "id") as [->|H1];
    [|destruct (String.eqb_spec k "title") as [->|H2];
      [|destruct (String.eqb_spec k "deliverables") as [->|H3];
        [|destruct (String.eqb_spec k "date") as [->|H4]]]];
    destruct (re_search first_line_re b), (re_search (field_re "title:") b),
      (re_search (field_re "deliverables:") b),
      (re_search (field_re "date:") b); by simplify_map_eq.
Qed.

Lemma phase_of_block_name pb :
  pfield (phase_of_block pb) "name" = extracted first_line_re pb.
Proof.
  unfold pfield, phase_of_block, set_if_match, extracted.
  destruct (re_search first_line_re pb), (re_search (field_re "goal:") pb),
    (re_search tasks_re pb); by simplify_map_eq.
Qed.

Lemma extracted_trimmed r s : strip (extracted r s) = extracted r s.
Proof.
  unfold extracted. destruct (re_search r s); [apply strip_idem | reflexivity].
Qed.

Lemma phase_of_block_goal pb :
  pfield (phase_of_block pb) "goal" = extracted (field_re "goal:") pb.
Proof.
  unfold pfield, phase_of_block, set_if_match, extracted.
  destruct (re_search first_line_re pb), (re_search (field_re "goal:") pb),
    (re_search tasks_re pb); by simplify_map_eq.
Qed.

Lemma phase_of_block_strings pb k s :
  phase_of_block pb !! k = Some (PStr s) ->
  s = pfield (phase_of_block pb) "name" \/ s = pfield (phase_of_block pb) "goal".
Proof.
  intros H.
  destruct (decide (k = "name")) as [->|Hn];
    [left; unfold pfield; by rewrite H|].
  destruct (decide (k = "goal")) as [->|Hg];
    [right; unfold pfield; by rewrite H|].
  exfalso. revert H. unfold phase_of_block, set_if_match.
  destruct (re_search first_line_re pb), (re_search (field_re "goal:") pb),
    (re_search tasks_re pb);
    destruct (decide (k = "tasks")) as [->|Ht]; by simplify_map_eq.
Qed.

(** X6.  Every string of the extracted model is trimmed: the project and
    the owner, the name and the goal of every phase, the name of the phase
    of every task, every field of every task and every field of every
    milestone have no white space at either end. *)
Theorem model_strings_are_trimmed (content : string) :
  (forall k v, assoc k (document_info content) = Some v -> strip v = v)
  /\ (forall p k v,
         In p (model_phases (parse_content content)) ->
         p !! k = Some (PStr v) -> strip v = v)
  /\ (forall pn t k v,
         In (pn, t) (model_tasks (parse_content content)) ->
         t !! k = Some v -> strip pn = pn /\ strip v = v)
  /\ (forall m k v,
         In m (model_milestones (parse_content content)) ->
         m !! k = Some v -> strip v = v).
Proof.
  split_and!.
  - intros k v Hk. unfold document_info in Hk. cbn [assoc] in Hk.
    repeat (destruct (String.eqb _ k);
            [injection Hk as <-; apply extracted_trimmed|]).
    discriminate.
  - intros p k v Hp Hk.
    apply in_model_phases in Hp as (pb & _ & -> & _).
    apply phase_of_block_strings in Hk as [-> | ->].
    + rewrite phase_of_block_name. apply extracted_trimmed.
    + rewrite phase_of_block_goal. apply extracted_trimmed.
  - intros pn t k v Ht Hk.
    apply in_model_tasks in Ht as (pb & tb & _ & _ & -> & -> & _).
    rewrite phase_of_block_name. split; [apply extracted_trimmed|].
    rewrite task_of_block_fields in Hk.
    repeat (destruct (String.eqb k _);
            [injection Hk as <-; apply extracted_trimmed|]).
    discriminate.
  - intros m k v Hm Hk.
    apply in_model_milestones in Hm as (b & _ & -> & _).
    rewrite milestone_of_block_fields in Hk.
    repeat (destruct (String.eqb k _);
            [injection Hk as <-; apply extracted_trimmed|]).
    discriminate.
Qed.

Lemma model_strings_are_trimmed_witness :
  strip "Platform Engineering" = "Platform Engineering"
  /\ strip "Run agents on nodes" = "Run agents on nodes"
  /\ (strip "Epic 2 - Node Runtime & Connectors"
      = "Epic 2 - Node Runtime & Connectors"
      /\ strip "Connect the node runtime." = "Connect the node runtime.")
  /\ strip "2026-01-15" = "2026-01-15".
Proof.
  destruct (model_strings_are_trimmed demo_doc)
    as (Hinfo & Hphases & Htasks & Hmilestones).
  split; [|split; [|split]].
  - apply (Hinfo "owner"). vm_compute. reflexivity.
  - apply (Hphases (phase_of_block (hd "" (document_phase_blocks demo_doc)))
             "goal").
    + apply (proj2 (in_model_phases _ _)).
      exists (hd "" (document_phase_blocks demo_doc)). split_and!.
      * vm_compute. left. reflexivity.
      * reflexivity.
      * vm_compute. discriminate.
    + vm_compute. reflexivity.
  - apply (Htasks "Epic 2 - Node Runtime & Connectors"
             (task_of_block demo_task_block) "description").
    + apply (proj2 (in_model_tasks _ _ _)).
      exists (hd "" (document_phase_blocks demo_doc)), demo_task_block.
      split_and!.
      * vm_compute. left. reflexivity.
      * vm_compute. do 2 right. left. reflexivity.
      * reflexivity.
      * vm_compute. reflexivity.
      * vm_compute. discriminate.
      * vm_compute. discriminate.
      * vm_compute. discriminate.
    + vm_compute. reflexivity.
  - apply (Hmilestones (milestone_of_block demo_milestone_block) "date").
    + apply (proj2 (in_model_milestones _ _)).
      exists demo_milestone_block. split_and!.
      * vm_compute. left. reflexivity.
      * reflexivity.
      * vm_compute. discriminate.
      * vm_compute. discriminate.
    + vm_compute. reflexivity.
Defined.

Lemma str_all_app p s1 s2 :
  str_all p (s1 +:+ s2) = str_all p s1 && str_all p s2.
Proof.
  induction s1 as [|a s1 IH]; [by destruct s2|].
  change (String a s1 +:+ s2) with (String a (s1 +:+ s2)).
  cbn [str_all]. by rewrite IH, andb_assoc.
Qed.

(** X7.  The title of every issue is a single line: for every task of the
    extracted model the formatted title exists and contains no newline,
    and neither does the phase name that is searched for the epic marker;
    for every milestone of the model the formatted title exists and
    contains no newline. *)
Theorem issue_titles_are_single_line (content : string) :
  (forall pn t,
      In (pn, t) (model_tasks (parse_content content)) ->
      exists title, issue_title t = Ok title /\ one_line title /\ one_line pn)
  /\ (forall m,
         In m (model_milestones (parse_content content)) ->
         exists title, milestone_title m = Ok title /\ one_line title).
Proof.
  split.
  - intros pn t Ht.
    apply in_model_tasks in Ht as (pb & tb & _ & _ & -> & -> & _).
    unfold issue_title, getitem. rewrite !task_of_block_fields. cbn.
    eexists. split_and!; [reflexivity | |].
    + unfold one_line. rewrite !str_all_app, extracted_first_line_one_line,
        extracted_field_one_line. reflexivity.
    + rewrite phase_of_block_name. apply extracted_first_line_one_line.
  - intros m Hm.
    apply in_model_milestones in Hm as (b & _ & -> & _).
    unfold milestone_title, getitem. rewrite milestone_of_block_fields. cbn.
    eexists. split; [reflexivity|].
    unfold one_line. rewrite !str_all_app, extracted_field_one_line.
    reflexivity.
Qed.

Lemma issue_titles_are_single_line_witness :
  (exists title,
      issue_title (task_of_block demo_task_block) = Ok title /\ one_line title
      /\ one_line "Epic 2 - Node Runtime & Connectors")
  /\ (exists title,
         milestone_title (milestone_of_block demo_milestone_block) = Ok title
         /\ one_line title).
Proof.
  destruct (issue_titles_are_single_line demo_doc) as [Htasks Hmilestones].
  split.
  - apply Htasks.
    apply (proj2 (in_model_tasks _ _ _)).
    exists (hd "" (document_phase_blocks demo_doc)), demo_task_block.
    split_and!.
    + vm_compute. left. reflexivity.
    + vm_compute. do 2 right. left. reflexivity.
    + reflexivity.
    + vm_compute. reflexivity.
    + vm_compute. discriminate.
    + vm_compute. discriminate.
    + vm_compute. discriminate.
  - apply Hmilestones.
    apply (proj2 (in_model_milestones _ _)).
    exists demo_milestone_block. split_and!.
    + vm_compute. left. reflexivity.
    + reflexivity.
    + vm_compute. discriminate.
    + vm_compute. discriminate.
Defined.

(** ** Greedy matching along a line *)

Lemma exec_group r k c :
  exec (Group r) k c
  = exec r (fun c' => k (Cursor (pos c') (rest c')
                           (Some (str_take (pos c' - pos c) (rest c))))) c.
Proof. reflexivity. Qed.

Lemma exec_lit l k c :
  String.prefix l (rest c) = true ->
  exec (Lit l) k c
  = k (Cursor (pos c + String.length l)
              (str_drop (String.length l) (rest c)) (grp c)).
Proof. intros H. cbn [exec]. by rewrite H. Qed.

Lemma exec_cls_step p k c a s :
  rest c = String a s -> p a = true ->
  exec (Cls p) k c = k (Cursor (S (pos c)) s (grp c)).
Proof. intros Hr Hp. cbn [exec]. by rewrite Hr, Hp. Qed.

Lemma exec_star_cls_step p k c a s :
  rest c = String a s -> p a = true ->
  exec (Star (Cls p)) k c
  = match exec (Star (Cls p)) k (Cursor (S (pos c)) s (grp c)) with
    | Some c' => Some c'
    | None => k c
    end.
Proof.
  intros Hr Hp. cbn [exec]. rewrite Hr. cbn [String.length]. rewrite Hr, Hp.
  cbn [pos rest].
  replace (pos c <? S (pos c))%nat with true
    by (symmetry; apply Nat.ltb_lt; lia).
  reflexivity.
Qed.

Lemma exec_star_cls_stop p k c :
  match rest c with String a _ => p a = false | EmptyString => True end ->
  exec (Star (Cls p)) k c = k c.
Proof.
  intros H. cbn [exec]. destruct (rest c) as [|a s] eqn:Hr; [reflexivity|].
  cbn [String.length]. by rewrite Hr, H.
Qed.

(** A greedy starred class runs to the end of the run of class characters
    when the continuation accepts there. *)
Lemma exec_star_cls_greedy p k w : forall c t c',
  rest c = w +:+ t -> str_all p w = true ->
  match t with String a _ => p a = false | EmptyString => True end ->
  k (Cursor (pos c + String.length w) t (grp c)) = Some c' ->
  exec (Star (Cls p)) k c = Some c'.
Proof.
  induction w as [|a w IH]; intros c t c' Hr Hw Ht Hk.
  - cbn in Hr, Hk. rewrite Nat.add_0_r in Hk.
    rewrite exec_star_cls_stop; [|by rewrite Hr].
    destruct c. cbn in *. by subst.
  - change (String a w +:+ t) with (String a (w +:+ t)) in Hr.
    cbn [str_all] in Hw. apply andb_true_iff in Hw as [Ha Hw].
    rewrite (exec_star_cls_step p k c a _ Hr Ha).
    rewrite (IH (Cursor (S (pos c)) (w +:+ t) (grp c)) t c'); try done.
    cbn [pos grp String.length] in *.
    by replace (S (pos c) + String.length w)
      with (pos c + S (String.length w)) by lia.
Qed.

Lemma not_space_not_newline x : isspace x = false -> negb (is_newline x) = true.
Proof.
  unfold isspace, is_newline. destruct (N.eqb_spec (N_of_ascii x) 10) as [->|];
    [discriminate | done].
Qed.

Lemma line_end tail :
  tail = "" \/ String.prefix nl tail = true ->
  match tail with
  | String a _ => negb (is_newline a) = false
  | EmptyString => True
  end.
Proof.
  intros [->|H]; [done|]. destruct tail as [|a tail]; [done|].
  unfold nl in H. cbn [String.prefix] in H.
  destruct (ascii_dec _ a) as [<-|]; [reflexivity | discriminate].
Qed.

(** [([^\n]+)] on a cursor that stands on a line *)
Lemma exec_group_line_greedy c x line tail :
  rest c = String x line +:+ tail ->
  negb (is_newline x) = true -> one_line line ->
  tail = "" \/ String.prefix nl tail = true ->
  exec (Group (Plus not_nl)) Some c
  = Some (Cursor (pos c + S (String.length line)) tail (Some (String x line))).
Proof.
  intros Hr Hx Hline Htail.
  change (String x line +:+ tail) with (String x (line +:+ tail)) in Hr.
  rewrite exec_group. unfold Plus, not_nl. rewrite exec_cat.
  rewrite (exec_cls_step _ _ c x _ Hr Hx).
  apply (exec_star_cls_greedy _ _ line _ tail); cbn [rest pos grp];
    [reflexivity | exact Hline | by apply line_end |].
  do 2 f_equal; [lia|]. f_equal.
  replace (S (pos c) + String.length line - pos c)
    with (String.length (String x line)) by (cbn; lia).
  rewrite Hr. change (String x (line +:+ tail)) with (String x line +:+ tail).
  apply str_take_app.
Qed.

Lemma prefix_app (key s : string) : String.prefix key (key +:+ s) = true.
Proof.
  induction key as [|a key IH]; [by destruct s|].
  change (String a key +:+ s) with (String a (key +:+ s)).
  cbn [String.prefix]. by destruct (ascii_dec a a).
Qed.

Lemma prefix_split (key s : string) :
  String.prefix key s = true -> s = key +:+ str_drop (String.length key) s.
Proof.
  revert s. induction key as [|a key IH]; intros s H; [by destruct s|].
  destruct s as [|b s]; [discriminate|]. cbn [String.prefix] in H.
  destruct (ascii_dec a b) as [<-|]; [|discriminate].
  change (String a key +:+ ?t) with (String a (key +:+ t)).
  cbn [String.length str_drop]. f_equal. by apply IH.
Qed.

Lemma str_drop_drop (a b : nat) (s : string) :
  str_drop a (str_drop b s) = str_drop (b + a) s.
Proof.
  revert s. induction b as [|b IH]; intros s; [reflexivity|].
  destruct s as [|x s]; [by destruct a|]. cbn [str_drop Nat.add]. apply IH.
Qed.

Lemma str_find_prefix key s n :
  str_find key s = Some n -> String.prefix key (str_drop n s) = true.
Proof.
  revert n. induction s as [|a s IH]; intros n; cbn [str_find].
  - destruct (String.prefix key "") eqn:E; [|discriminate].
    by intros [= <-].
  - destruct (String.prefix key (String a s)) eqn:E; [by intros [= <-]|].
    destruct (str_find key s) as [n'|]; [|discriminate]. intros [= <-].
    cbn [str_drop]. by apply IH.
Qed.

(** [re.search] of a pattern that begins with a literal succeeds at the
    first occurrence of the literal when the rest matches there. *)
Lemma search_from_first key R s : forall n i c',
  str_find key s = Some n ->
  exec (Cat (Lit key) R) Some (Cursor (i + n) (str_drop n s) None) = Some c' ->
  search_from (Cat (Lit key) R) i s = Some (RMatch (i + n) (pos c') (grp c')).
Proof.
  induction s as [|a s IH]; intros n i c'; cbn [str_find].
  - destruct (String.prefix key "") eqn:E; [|discriminate]. intros [= <-].
    rewrite Nat.add_0_r. cbn [str_drop search_from]. by intros ->.
  - destruct (String.prefix key (String a s)) eqn:E.
    + intros [= <-]. rewrite Nat.add_0_r. cbn [str_drop search_from].
      by intros ->.
    + destruct (str_find key s) as [n'|] eqn:Hf; [|discriminate].
      intros [= <-]. cbn [str_drop]. intros H.
      cbn [search_from]. rewrite exec_cat.
      cbn [exec rest]. rewrite E.
      replace (i + S n') with (S i + n') in * by lia. by apply IH.
Qed.

Lemma exec_field_re_greedy key c w x line tail :
  String.prefix key (rest c) = true ->
  str_drop (String.length key) (rest c) = w +:+ String x line +:+ tail ->
  str_all isspace w = true -> isspace x = false -> one_line line ->
  tail = "" \/ String.prefix nl tail = true ->
  exec (field_re key) Some c
  = Some (Cursor (pos c + String.length key + String.length w
                  + S (String.length line))
                 tail (Some (String x line))).
Proof.
  intros Hkey Hrest Hw Hx Hline Htail. unfold field_re.
  rewrite exec_cat, (exec_lit _ _ _ Hkey), exec_cat. unfold ws.
  eapply (exec_star_cls_greedy _ _ w _ (String x line +:+ tail));
    cbn [rest pos grp]; [exact Hrest | exact Hw | exact Hx |].
  rewrite (exec_group_line_greedy _ x line tail); cbn [rest pos];
    [reflexivity | reflexivity | by apply not_space_not_newline | done..].
Qed.

Lemma extracted_field_value key s n w x line tail :
  str_find key s = Some n ->
  str_drop (n + String.length key) s = w +:+ String x line +:+ tail ->
  str_all isspace w = true -> isspace x = false -> one_line line ->
  tail = "" \/ String.prefix nl tail = true ->
  extracted (field_re key) s = strip (String x line).
Proof.
  intros Hfind Hrest Hw Hx Hline Htail.
  pose proof (str_find_prefix key s n Hfind) as Hkey.
  rewrite <- str_drop_drop in Hrest.
  pose proof (exec_field_re_greedy key (Cursor (0 + n) (str_drop n s) None)
                w x line tail Hkey Hrest Hw Hx Hline Htail) as Hexec.
  unfold extracted, re_search, field_re in *.
  by rewrite (search_from_first key _ s n 0 _ Hfind Hexec).
Qed.

(** X8.  A single-line field is the text from the first character that is
    not white space after the first occurrence of its key up to the end of
    that line, trimmed.  The white space skipped after the key may contain
    newlines, so a key with nothing on its own line takes the next line
    that is not blank. *)
Theorem single_line_field_value (key s w line tail : string) (x : ascii)
    (n : nat)
    (Hfind : str_find key s = Some n)
    (Hrest : str_drop (n + String.length key) s
             = w +:+ String x line +:+ tail)
    (Hw : str_all isspace w = true) (Hx : isspace x = false)
    (Hline : one_line line)
    (Htail : tail = "" \/ String.prefix nl tail = true) :
  let v := strip (String x line) in
  (key = "project:" -> parse_content s !! "project" = Some (DStr v))
  /\ (key = "owner:" -> parse_content s !! "owner" = Some (DStr v))
  /\ (key = "goal:" -> pfield (phase_of_block s) "goal" = v)
  /\ (key = "title:" -> task_of_block s !! "title" = Some v
                        /\ milestone_of_block s !! "title" = Some v)
  /\ (key = "deliverables:" -> milestone_of_block s !! "deliverables" = Some v)
  /\ (key = "date:" -> milestone_of_block s !! "date" = Some v).
Proof.
  cbv zeta.
  pose proof (extracted_field_value key s n w x line tail
                Hfind Hrest Hw Hx Hline Htail) as Hv.
  split_and!; intros ->.
  - by rewrite parse_content_project, <- Hv.
  - by rewrite parse_content_owner, <- Hv.
  - rewrite <- Hv. unfold pfield, phase_of_block, set_if_match, extracted.
    destruct (re_search first_line_re s), (re_search (field_re "goal:") s),
      (re_search tasks_re s); by simplify_map_eq.
  - by rewrite task_of_block_fields, milestone_of_block_fields, <- Hv.
  - by rewrite milestone_of_block_fields, <- Hv.
  - by rewrite milestone_of_block_fields, <- Hv.
Qed.

Lemma single_line_field_value_witness :
  task_of_block (" E2-T4" +:+ nl +:+ "        title:" +:+ nl
                   +:+ "        description: Connect the node runtime.")
    !! "title"
  = Some "description: Connect the node runtime.".
Proof.
  refine (proj1 (proj1 (proj2 (proj2 (proj2
    (single_line_field_value "title:" _ (nl +:+ "        ")
       "escription: Connect the node runtime." "" "d" 15
       _ _ _ _ _ _)))) eq_refl));
    try (vm_compute; reflexivity).
  left. reflexivity.
Defined.

Lemma exec_bos k c : pos c = 0 -> exec Bos k c = k c.
Proof. intros H. cbn [exec]. by rewrite H. Qed.

Lemma search_from_bos_later R s i :
  search_from (Cat Bos R) (S i) s = None.
Proof.
  revert i. induction s as [|a s IH]; intros i; cbn [search_from];
    rewrite exec_cat; cbn [exec pos Nat.eqb]; [reflexivity | apply IH].
Qed.

Lemma extracted_first_line block x line tail :
  block = String x line +:+ tail ->
  is_newline x = false -> one_line line ->
  tail = "" \/ String.prefix nl tail = true ->
  extracted first_line_re block = strip (String x line).
Proof.
  intros -> Hx Hline Htail. unfold extracted, re_search, first_line_re.
  change (String x line +:+ tail) with (String x (line +:+ tail)).
  cbn [search_from]. rewrite exec_cat, exec_bos by reflexivity.
  rewrite (exec_group_line_greedy _ x line tail); cbn [rest];
    [reflexivity | reflexivity | by rewrite Hx | done..].
Qed.

Lemma extracted_first_line_blank block :
  block = "" \/ String.prefix nl block = true ->
  extracted first_line_re block = "".
Proof.
  intros H. unfold extracted, re_search, first_line_re.
  destruct block as [|a s].
  - cbn [search_from]. rewrite exec_cat. reflexivity.
  - destruct H as [H|H]; [discriminate|].
    unfold nl in H. cbn [String.prefix] in H.
    destruct (ascii_dec _ a) as [<-|]; [|discriminate].
    cbn [search_from]. rewrite exec_cat.
    cbn [exec pos Nat.eqb Plus not_nl rest].
    change (negb (is_newline (ascii_of_N 10))) with false. cbv iota.
    by rewrite search_from_bos_later.
Qed.

(** X9.  The id of a record (and the name of a phase) is the trimmed first
    line of its block.  A block that is empty or starts with a newline,
    that is a marker with nothing behind it on its line, gives the empty
    id, and such a task, milestone or phase is dropped. *)
Theorem record_id_is_first_line (block line tail blank : string) (x : ascii)
    (Hblock : block = String x line +:+ tail)
    (Hx : is_newline x = false) (Hline : one_line line)
    (Htail : tail = "" \/ String.prefix nl tail = true)
    (Hblank : blank = "" \/ String.prefix nl blank = true) :
  task_of_block block !! "id" = Some (strip (String x line))
  /\ milestone_of_block block !! "id" = Some (strip (String x line))
  /\ pfield (phase_of_block block) "name" = strip (String x line)
  /\ keep_record (task_of_block blank) = false
  /\ keep_record (milestone_of_block blank) = false
  /\ keep_phase (phase_of_block blank) = false.
Proof.
  pose proof (extracted_first_line block x line tail Hblock Hx Hline Htail)
    as Hv.
  pose proof (extracted_first_line_blank blank Hblank) as Hb.
  rewrite task_of_block_fields, milestone_of_block_fields,
    phase_of_block_name, Hv.
  split_and!; try reflexivity.
  - unfold keep_record, field. by rewrite task_of_block_fields, Hb.
  - unfold keep_record, field. by rewrite milestone_of_block_fields, Hb.
  - unfold keep_phase. by rewrite phase_of_block_name, Hb.
Qed.

Lemma record_id_is_first_line_witness :
  task_of_block (" E2-T4 " +:+ nl +:+ "        title: Build connector")
    !! "id" = Some "E2-T4"
  /\ keep_phase (phase_of_block (nl +:+ "    goal: Orphaned work")) = false.
Proof.
  destruct (record_id_is_first_line
              (" E2-T4 " +:+ nl +:+ "        title: Build connector")
              "E2-T4 " (nl +:+ "        title: Build connector")
              (nl +:+ "    goal: Orphaned work") " "
              eq_refl eq_refl eq_refl (or_intror eq_refl) (or_intror eq_refl))
    as (Hid & _ & _ & _ & _ & Hphase).
  split; [exact Hid | exact Hphase].
Defined.

(** ** Splitting on a literal marker *)

Lemma search_from_lit (l : string) (s : string) : forall i,
  search_from (Lit l) i s
  = option_map (fun n => RMatch (i + n) (i + n + String.length l) None)
               (str_find l s).
Proof.
  induction s as [|a s IH]; intros i; cbn [search_from str_find exec rest pos grp].
  - destruct (String.prefix l ""); cbn; [by rewrite Nat.add_0_r | reflexivity].
  - destruct (String.prefix l (String a s)); cbn [option_map];
      [by rewrite Nat.add_0_r|].
    rewrite IH. destruct (str_find l s); cbn [option_map]; [|reflexivity].
    by replace (S i + n) with (i + S n) by lia.
Qed.

Lemma str_take_drop (n : nat) (s : string) : str_take n s +:+ str_drop n s = s.
Proof.
  revert s. induction n as [|n IH]; intros s; [by destruct s|].
  destruct s as [|a s]; [reflexivity|]. cbn [str_take str_drop].
  change (String a ?u +:+ ?v) with (String a (u +:+ v)). by rewrite IH.
Qed.

Lemma split_from_cons fuel r i s :
  exists b bs, split_from fuel r i s = b :: bs.
Proof.
  destruct fuel; cbn [split_from]; [eauto|]. destruct (search_from r i s); eauto.
Qed.

Lemma join_cons sep b bs :
  bs <> [] -> join sep (b :: bs) = b +:+ sep +:+ join sep bs.
Proof. by destruct bs. Qed.

Lemma app_assoc_str (a b c : string) : (a +:+ b) +:+ c = a +:+ b +:+ c.
Proof.
  induction a as [|x a IH]; [reflexivity|].
  change (String x a +:+ b) with (String x (a +:+ b)).
  change (String x ?u +:+ ?v) with (String x (u +:+ v)). by rewrite IH.
Qed.

Lemma join_split_from (l : string) fuel : forall i s,
  join l (split_from fuel (Lit l) i s) = s.
Proof.
  induction fuel as [|fuel IH]; intros i s; cbn [split_from]; [reflexivity|].
  rewrite search_from_lit.
  destruct (str_find l s) as [n|] eqn:Hfind; cbn [option_map]; [|reflexivity].
  cbn [m_start m_end].
  destruct (split_from_cons fuel (Lit l) (i + n + String.length l)
              (str_drop (i + n + String.length l - i) s)) as (b & bs & Hs).
  rewrite join_cons by (rewrite Hs; discriminate). rewrite IH.
  replace (i + n - i) with n by lia.
  replace (i + n + String.length l - i) with (n + String.length l) by lia.
  rewrite <- str_drop_drop.
  rewrite <- (prefix_split l (str_drop n s)) by (by apply str_find_prefix).
  apply str_take_drop.
Qed.

(** X10.  Splitting loses nothing but the markers: joining the pieces of a
    section text with the marker gives the section text back, for the
    three splits of the extractor.  So piece 0, which each loop skips, is
    all the text in front of the first marker. *)
Theorem split_pieces_rejoin (text : string) :
  join phase_marker (re_split (Lit phase_marker) text) = text
  /\ join task_marker (re_split (Lit task_marker) text) = text
  /\ join milestone_marker (re_split (Lit milestone_marker) text) = text.
Proof. unfold re_split. split_and!; apply join_split_from. Qed.

(** ** The text of a section *)




Section SectionText.
Variable test : regex.
Hypothesis test_at_end : forall c, rest c = "" -> exec test Some c <> None.
Hypothesis test_keeps_group :
  forall c c', exec test Some c = Some c' -> grp c' = grp c.





End SectionText.










(** ** The blocks contain no marker *)

Lemma str_find_none l s : str_find l s = None -> str_contains l s = false.
Proof.
  induction s as [|a s IH]; cbn [str_find str_contains].
  - by destruct (String.prefix l "").
  - destruct (String.prefix l (String a s)); [discriminate|].
    destruct (str_find l s); [discriminate|]. intros _. by rewrite IH.
Qed.

Lemma prefix_take l : forall n s,
  String.prefix l (str_take n s) = true -> String.prefix l s = true.
Proof.
  induction l as [|x l IH]; intros n s H; [by destruct s|].
  destruct n, s as [|a s]; try discriminate.
  cbn [str_take String.prefix] in *.
  destruct (ascii_dec x a); [by eapply IH | discriminate].
Qed.

Lemma str_find_take l : forall s n,
  l <> "" -> str_find l s = Some n -> str_contains l (str_take n s) = false.
Proof.
  intros s n Hl. revert n. induction s as [|a s IH]; intros n; cbn [str_find].
  - destruct l; [done|]. discriminate.
  - destruct (String.prefix l (String a s)) eqn:E.
    + intros [= <-]. cbn [str_take str_contains]. destruct l; [done|].
      reflexivity.
    + destruct (str_find l s) as [n'|]; [|discriminate]. intros [= <-].
      cbn [str_take str_contains]. rewrite (IH n' eq_refl), orb_false_r.
      destruct (String.prefix l (String a (str_take n' s))) eqn:E'; [|done].
      apply (prefix_take l (S n') (String a s)) in E'. congruence.
Qed.

Lemma length_str_drop n : forall s,
  String.length (str_drop n s) = String.length s - n.
Proof.
  induction n as [|n IH]; intros s; [cbn; lia|].
  destruct s as [|a s]; [reflexivity|]. cbn [str_drop String.length]. apply IH.
Qed.

Lemma length_app_str (a b : string) :
  String.length (a +:+ b) = String.length a + String.length b.
Proof.
  induction a as [|x a IH]; [reflexivity|].
  change (String x a +:+ b) with (String x (a +:+ b)).
  cbn [String.length]. by rewrite IH.
Qed.

Lemma prefix_length l : forall s,
  String.prefix l s = true -> String.length l <= String.length s.
Proof.
  induction l as [|x l IH]; intros s H; [cbn; lia|].
  destruct s as [|a s]; [discriminate|]. cbn [String.prefix] in H.
  destruct (ascii_dec x a); [|discriminate].
  cbn [String.length]. specialize (IH s H). lia.
Qed.

Lemma str_find_length l : forall s n,
  str_find l s = Some n -> n + String.length l <= String.length s.
Proof.
  induction s as [|a s IH]; intros n; cbn [str_find].
  - destruct (String.prefix l "") eqn:E; [|discriminate]. intros [= <-].
    by apply prefix_length in E.
  - destruct (String.prefix l (String a s)) eqn:E.
    + intros [= <-]. by apply prefix_length in E.
    + destruct (str_find l s) as [n'|]; [|discriminate]. intros [= <-].
      specialize (IH n' eq_refl). cbn [String.length]. lia.
Qed.

Lemma split_from_no_marker l : l <> "" ->
  forall fuel i s, String.length s <= fuel ->
  Forall (fun b => str_contains l b = false) (split_from fuel (Lit l) i s).
Proof.
  intros Hl. induction fuel as [|fuel IH]; intros i s Hlen; cbn [split_from].
  - destruct s; [|cbn in Hlen; lia]. constructor; [|constructor].
    destruct l; [done|]. reflexivity.
  - rewrite search_from_lit.
    destruct (str_find l s) as [n|] eqn:Hfind; cbn [option_map].
    + cbn [m_start m_end]. constructor.
      * replace (i + n - i) with n by lia. by apply str_find_take.
      * apply IH. rewrite length_str_drop.
        pose proof (str_find_length l s n Hfind).
        destruct l; [done|]. cbn [String.length] in *. lia.
    + constructor; [by apply str_find_none | constructor].
Qed.

Lemma Forall_drop_1 {A} (P : A -> Prop) (l : list A) :
  Forall P l -> Forall P (drop 1 l).
Proof. intros H. destruct H; [constructor | done]. Qed.

Lemma marker_blocks l s : l <> "" ->
  Forall (fun b => str_contains l b = false) (drop 1 (re_split (Lit l) s)).
Proof.
  intros Hl. apply Forall_drop_1, split_from_no_marker; [done | lia].
Qed.

(** X12.  No block that a loop of the extractor works on contains the
    marker it was split on: a phase block holds no phase marker, a task
    block no task marker, a milestone block no milestone marker. *)
Theorem blocks_hold_no_marker (content pb : string) :
  Forall (fun b => str_contains phase_marker b = false)
         (document_phase_blocks content)
  /\ Forall (fun b => str_contains task_marker b = false)
            (phase_task_blocks pb)
  /\ Forall (fun b => str_contains milestone_marker b = false)
            (document_milestone_blocks content).
Proof.
  unfold document_phase_blocks, phase_task_blocks, document_milestone_blocks,
    phase_blocks, task_blocks, milestone_blocks.
  split_and!.
  - destruct (re_search phases_re content); [by apply marker_blocks | constructor].
  - destruct (re_search tasks_re pb); [by apply marker_blocks | constructor].
  - destruct (re_search milestones_re content);
      [by apply marker_blocks | constructor].
Qed.

(** ** The description of a task *)

Lemma exec_star_lazy r k c :
  exec (StarLazy r) k c = lazy_loop r k (String.length (rest c)) c.
Proof. reflexivity. Qed.

Lemma lazy_loop_eq r k fuel c :
  lazy_loop r k fuel c
  = match k c with
    | Some c' => Some c'
    | None =>
        match fuel with
        | O => None
        | S fuel' =>
            exec r (fun c' => if (pos c <? pos c')%nat
                              then lazy_loop r k fuel' c' else None) c
        end
    end.
Proof. by destruct fuel. Qed.

Lemma line_split (s : string) :
  exists line tail, s = line +:+ tail /\ one_line line
                    /\ (tail = "" \/ String.prefix nl tail = true).
Proof.
  induction s as [|a s (line & tail & -> & Hline & Htail)].
  - exists "", "". split_and!; [done | done | by left].
  - destruct (is_newline a) eqn:Ha.
    + exists "", (String a (line +:+ tail)). split_and!; [done | done |].
      right. unfold is_newline in Ha. apply N.eqb_eq in Ha.
      rewrite <- (ascii_N_embedding a), Ha. by destruct (line +:+ tail).
    + exists (String a line), tail. split_and!; [done | | done].
      unfold one_line. cbn [str_all]. by rewrite Ha.
Qed.

Lemma str_contains_suffix l a b :
  str_contains l (a +:+ b) = false -> str_contains l b = false.
Proof.
  induction a as [|x a IH]; [done|].
  change (String x a +:+ b) with (String x (a +:+ b)). cbn [str_contains].
  intros H. apply orb_false_elim in H as [_ H]. by apply IH.
Qed.

Lemma str_contains_prefix l s :
  str_contains l s = false -> String.prefix l s = false.
Proof. destruct s; cbn [str_contains]; intros H; by apply orb_false_elim in H as [H _]. Qed.

Lemma prefix_nl_cons s :
  String.prefix nl s = true -> exists s1, s = nl +:+ s1.
Proof.
  destruct s as [|a s]; [discriminate|]. unfold nl. cbn [String.prefix].
  destruct (ascii_dec _ a) as [<-|]; [|discriminate]. by exists s.
Qed.

(** The lazily starred [(?:\n[^\n]* )] walks line by line over a text that
    holds no task marker, until what is left is empty or one newline. *)
Lemma lazy_lines k :
  (forall d, rest d <> "" -> rest d <> nl ->
             String.prefix task_marker (rest d) = false -> k d = None) ->
  forall fuel c s,
    rest c = s -> String.length s <= fuel ->
    s = "" \/ String.prefix nl s = true ->
    str_contains task_marker s = false ->
    exists n, (str_drop n s = "" \/ str_drop n s = nl)
              /\ forall c', k (Cursor (pos c + n) (str_drop n s) (grp c)) = Some c' ->
                            lazy_loop (Cat (Lit nl) (Star not_nl)) k fuel c
                            = Some c'.
Proof.
  intros Hk. induction fuel as [|fuel IH]; intros c s Hr Hlen Hs Hno.
  - destruct s; [|cbn in Hlen; lia]. exists 0. split; [by left|].
    intros c' Hc. rewrite lazy_loop_eq. destruct c as [p r g].
    cbn [pos rest grp str_drop] in *. subst r.
    by rewrite Nat.add_0_r in Hc; rewrite Hc.
  - destruct (string_dec s "") as [->|Hne];
      [|destruct (string_dec s nl) as [->|Hnl]].
    + exists 0. split; [by left|].
      intros c' Hc. rewrite lazy_loop_eq. destruct c as [p r g].
      cbn [pos rest grp str_drop] in *. subst r.
      by rewrite Nat.add_0_r in Hc; rewrite Hc.
    + exists 0. split; [by right|].
      intros c' Hc. rewrite lazy_loop_eq. destruct c as [p r g].
      cbn [pos rest grp str_drop] in *. subst r.
      by rewrite Nat.add_0_r in Hc; rewrite Hc.
    + destruct Hs as [->|Hs]; [done|].
      destruct (prefix_nl_cons s Hs) as [s1 ->].
      destruct (line_split s1) as (line & tail & -> & Hline & Htail).
      assert (Hno' : str_contains task_marker tail = false).
      { apply (str_contains_suffix _ (nl +:+ line)).
        by rewrite app_assoc_str. }
      destruct (IH (Cursor (pos c + 1 + String.length line) tail (grp c)) tail
                  eq_refl) as (n & Hend & Hloop); [ | done | done | ].
      { rewrite !length_app_str in Hlen. cbn in Hlen. lia. }
      exists (1 + String.length line + n). split.
      { change (nl +:+ ?t) with (String (ascii_of_N 10) t).
        cbn [Nat.add str_drop]. rewrite <- str_drop_drop.
        replace (str_drop (String.length line) (line +:+ tail)) with tail; [done|].
        clear. induction line as [|x line IH]; [by destruct tail|].
        change (String x line +:+ tail) with (String x (line +:+ tail)).
        cbn [String.length str_drop]. exact IH. }
      intros c' Hc. rewrite lazy_loop_eq.
      rewrite Hk; [ | by rewrite Hr | by rewrite Hr
                    | rewrite Hr; by apply str_contains_prefix ].
      rewrite exec_cat.
      rewrite exec_lit by (by rewrite Hr).
      rewrite Hr. change (str_drop (String.length nl) (nl +:+ ?t)) with t.
      unfold not_nl.
      apply (exec_star_cls_greedy _ _ line _ tail); cbn [rest pos grp];
        [reflexivity | exact Hline | by apply line_end |].
      change (String.length nl) with 1.
      replace (pos c <? pos c + 1 + String.length line)%nat with true
        by (symmetry; apply Nat.ltb_lt; lia).
      apply Hloop. cbn [pos grp].
      replace (pos c + 1 + String.length line + n)
        with (pos c + (1 + String.length line + n)) by lia.
      rewrite <- Hc. do 2 f_equal.
      change (nl +:+ ?t) with (String (ascii_of_N 10) t).
      cbn [Nat.add str_drop]. rewrite <- str_drop_drop. f_equal.
      clear. induction line as [|x line IH]; [by destruct tail|].
      change (String x line +:+ tail) with (String x (line +:+ tail)).
      cbn [String.length str_drop]. exact IH.
Qed.

Lemma is_newline_eq a : is_newline a = true -> a = ascii_of_N 10.
Proof.
  unfold is_newline. intros H. apply N.eqb_eq in H.
  by rewrite <- (ascii_N_embedding a), H.
Qed.

(** Away from the end of a text without a task marker the look-ahead
    [(?=\n      - id:|$)] fails. *)
Lemma description_test_fails c :
  rest c <> "" -> rest c <> nl ->
  String.prefix task_marker (rest c) = false ->
  exec (Ahead (Alt (Lit task_marker) Eos)) Some c = None.
Proof.
  intros Hne Hnl Hp. cbn [exec]. rewrite Hp.
  destruct (rest c) as [|a [|b s]]; [done | | reflexivity].
  destruct (is_newline a) eqn:Ha; [|reflexivity].
  apply is_newline_eq in Ha. by subst a.
Qed.

Lemma description_test_at_end c :
  rest c = "" \/ rest c = nl ->
  exec (Ahead (Alt (Lit task_marker) Eos)) Some c = Some c.
Proof.
  destruct c as [p r g]. cbn [rest]. intros [->| ->]; reflexivity.
Qed.

Lemma str_drop_app (a b : string) : str_drop (String.length a) (a +:+ b) = b.
Proof.
  induction a as [|x a IH]; [by destruct b|].
  change (String x a +:+ b) with (String x (a +:+ b)).
  cbn [String.length str_drop]. exact IH.
Qed.

Lemma str_take_app_more (a b : string) (n : nat) :
  str_take (String.length a + n) (a +:+ b) = a +:+ str_take n b.
Proof.
  induction a as [|x a IH]; [by destruct b, n|].
  change (String x a +:+ ?t) with (String x (a +:+ t)).
  cbn [String.length Nat.add str_take]. by rewrite IH.
Qed.

(** The group of the description pattern, matched at a cursor that stands
    on [description:], in a text without a task marker. *)
Lemma exec_description c w x r :
  String.prefix "description:" (rest c) = true ->
  str_drop 12 (rest c) = w +:+ String x r ->
  str_all isspace w = true -> isspace x = false ->
  str_contains task_marker r = false ->
  exists m c', exec description_re Some c = Some c'
               /\ grp c' = Some (String x (str_take m r))
               /\ (str_drop m r = "" \/ str_drop m r = nl).
Proof.
  intros Hkey Hrest Hw Hx Hno.
  destruct (line_split r) as (line & tail & -> & Hline & Htail).
  set (c1 := Cursor (pos c + 12 + String.length w)
                    (String x (line +:+ tail)) (grp c)).
  set (k1 := fun c' : cursor =>
               exec (Ahead (Alt (Lit task_marker) Eos)) Some
                    (Cursor (pos c') (rest c')
                       (Some (str_take (pos c' - pos c1) (rest c1))))).
  destruct (lazy_lines k1) with
    (fuel := String.length tail)
    (c := Cursor (S (pos c1) + String.length line) tail (grp c1)) (s := tail)
    as (n & Hend & Hloop).
  { intros d H1 H2 H3. unfold k1. by apply description_test_fails. }
  { reflexivity. }
  { lia. }
  { exact Htail. }
  { by apply (str_contains_suffix _ line). }
  exists (String.length line + n). eexists. split_and!.
  - unfold description_re.
    rewrite exec_cat, (exec_lit _ _ _ Hkey), exec_cat. unfold ws.
    apply (exec_star_cls_greedy _ _ w _ (String x (line +:+ tail)));
      cbn [rest pos grp]; [exact Hrest | exact Hw | exact Hx |].
    change (String.length "description:") with 12. fold c1.
    rewrite exec_cat, exec_group. fold k1.
    unfold Plus. rewrite !exec_cat. unfold not_nl.
    rewrite (exec_cls_step _ _ c1 x (line +:+ tail) eq_refl)
      by (by apply not_space_not_newline).
    apply (exec_star_cls_greedy _ _ line _ tail); cbn [rest pos grp];
      [reflexivity | exact Hline | by apply line_end |].
    rewrite exec_star_lazy. cbn [rest]. apply Hloop.
    unfold k1. apply description_test_at_end. cbn [rest]. exact Hend.
  - cbn [grp pos rest]. f_equal. unfold c1. cbn [pos rest].
    replace (S (pos c + 12 + String.length w) + String.length line + n
             - (pos c + 12 + String.length w))
      with (S (String.length line + n)) by lia.
    reflexivity.
  - rewrite <- str_drop_drop, str_drop_app. exact Hend.
Qed.

Lemma rstrip_end (u fin : string) :
  fin = "" \/ fin = nl -> rstrip (u +:+ fin) = rstrip u.
Proof.
  intros Hfin. induction u as [|a u IH].
  - by destruct Hfin as [->| ->].
  - change (String a u +:+ fin) with (String a (u +:+ fin)).
    by rewrite !rstrip_cons, IH.
Qed.

Lemma extracted_description tb n w x r :
  str_find "description:" tb = Some n ->
  str_drop (n + 12) tb = w +:+ String x r ->
  str_all isspace w = true -> isspace x = false ->
  str_contains task_marker r = false ->
  extracted description_re tb = strip (String x r).
Proof.
  intros Hfind Hrest Hw Hx Hno.
  pose proof (str_find_prefix _ tb n Hfind) as Hkey.
  rewrite <- str_drop_drop in Hrest.
  destruct (exec_description (Cursor (0 + n) (str_drop n tb) None) w x r
              Hkey Hrest Hw Hx Hno) as (m & c' & Hexec & Hg & Hend).
  unfold extracted, re_search, description_re in *.
  rewrite (search_from_first _ _ tb n 0 _ Hfind Hexec).
  unfold group1. cbn [m_group]. rewrite Hg. cbn [default from_option id].
  unfold strip. cbn [lstrip]. rewrite Hx.
  rewrite <- (str_take_drop m r) at 2.
  change (String x (?a +:+ ?b)) with (String x a +:+ b).
  by rewrite rstrip_end.
Qed.

Lemma lstrip_split (s : string) :
  exists w, s = w +:+ lstrip s /\ str_all isspace w = true.
Proof.
  induction s as [|a s (w & Hs & Hw)]; [exists ""; split; reflexivity|].
  cbn [lstrip]. destruct (isspace a) eqn:Ha.
  - exists (String a w). change (String a w +:+ ?t) with (String a (w +:+ t)).
    split; [by rewrite <- Hs | by cbn [str_all]; rewrite Ha].
  - exists "". split; reflexivity.
Qed.

Lemma task_block_no_marker pb tb :
  In tb (phase_task_blocks pb) -> str_contains task_marker tb = false.
Proof.
  unfold phase_task_blocks, task_blocks.
  destruct (re_search tasks_re pb) as [m|]; [|done].
  pose proof (marker_blocks task_marker (group1 m)) as H.
  rewrite List.Forall_forall in H. intros Hin. by apply H.
Qed.

(** X13.  The description of a task runs to the end of its block.  In a
    block that the task loop works on, the description is everything
    behind the first [description:], trimmed: all the lines that follow,
    further keys of the task among them.  (The look-ahead of the pattern
    can only succeed at the end of the block, because a block holds no
    task marker.) *)
Theorem description_runs_to_end_of_block (pb tb : string) (n : nat)
    (Hblock : In tb (phase_task_blocks pb))
    (Hfind : str_find "description:" tb = Some n)
    (Hvalue : strip (str_drop (n + 12) tb) <> "") :
  task_of_block tb !! "description" = Some (strip (str_drop (n + 12) tb)).
Proof.
  rewrite task_of_block_fields. cbn [String.eqb Ascii.eqb Bool.eqb]. f_equal.
  apply task_block_no_marker in Hblock.
  destruct (lstrip_split (str_drop (n + 12) tb)) as (w & Hs & Hw).
  unfold strip in *.
  destruct (lstrip_head (str_drop (n + 12) tb)) as [E|(x & r & E & Hx)];
    [by rewrite E in Hvalue |].
  rewrite E in Hs |- *.
  rewrite (extracted_description tb n w x r Hfind Hs Hw Hx).
  - unfold strip. cbn [lstrip]. by rewrite Hx.
  - rewrite <- (str_take_drop (n + 12) tb), Hs in Hblock.
    apply str_contains_suffix, str_contains_suffix in Hblock.
    cbn [str_contains] in Hblock. by apply orb_false_elim in Hblock as [_ ?].
Qed.

Lemma description_runs_to_end_of_block_witness :
  task_of_block annotated_task_block !! "description"
  = Some (strip (str_drop (43 + 12) annotated_task_block))
  /\ strip (str_drop (43 + 12) annotated_task_block)
     = "Pull leases." +:+ nl +:+ "        owner: Platform team".
Proof.
  split; [|vm_compute; reflexivity].
  apply (description_runs_to_end_of_block
           (" Epic 2" +:+ nl +:+ "    tasks:" +:+ nl
              +:+ "      - id: E2-T1" +:+ nl
              +:+ "        title: Node runtime skeleton" +:+ nl
              +:+ "      - id: E2-T2" +:+ nl
              +:+ "        title: Lease client" +:+ nl
              +:+ "        description: Pull leases." +:+ nl
              +:+ "        owner: Platform team" +:+ nl)).
  - vm_compute. left. reflexivity.
  - vm_compute. reflexivity.
  - vm_compute. discriminate.
Defined.

Lemma app_empty_r_str (s : string) : s +:+ "" = s.
Proof.
  induction s as [|a s IH]; [reflexivity|].
  change (String a s +:+ "") with (String a (s +:+ "")). by rewrite IH.
Qed.

Lemma join_snoc_empty sep xs :
  xs <> [] -> join sep (xs ++ [""])%list = join sep xs +:+ sep.
Proof.
  induction xs as [|x xs IH]; [done|]. intros _.
  destruct xs as [|y xs].
  - cbn [app join]. by rewrite app_empty_r_str.
  - change ((x :: y :: xs) ++ [""])%list with (x :: (y :: xs) ++ [""])%list.
    rewrite join_cons by (by destruct xs).
    rewrite join_cons by done. rewrite IH by done.
    by rewrite !app_assoc_str.
Qed.

(** X14.  The follow-up script files a task the way the main script does:
    under the project context that it hard-codes the title is the same and
    the body is the same text without the final newline.  The labels are
    not derived from the epic but copied from the task. *)
Theorem follow_up_issue_matches (t : gmap string string)
    (i title description epic labels : string)
    (Hid : t !! "id" = Some i) (Htitle : t !! "title" = Some title)
    (Hdescription : t !! "description" = Some description)
    (Hepic : t !! "epic" = Some epic)
    (Hlabels : t !! "labels" = Some labels) :
  exists body,
    Missing.issue_cmd t
    = Ok (gh_issue_create ("[" +:+ i +:+ "] " +:+ title) body labels)
    /\ issue_cmd t epic sample_info
       = Ok (gh_issue_create ("[" +:+ i +:+ "] " +:+ title) (body +:+ nl)
               (join "," (issue_labels epic))).
Proof.
  unfold Missing.issue_cmd, Missing.issue_body, issue_cmd, issue_title,
    issue_body, getitem, getitem_o, sample_info.
  rewrite Hid, Htitle, Hdescription, Hepic, Hlabels.
  cbn [rbind assoc String.eqb Ascii.eqb Bool.eqb].
  eexists. split; [reflexivity|].
  rewrite <- join_snoc_empty by done. reflexivity.
Qed.

Lemma follow_up_issue_matches_witness :
  exists body,
    Missing.issue_cmd follow_up_task
    = Ok (gh_issue_create ("[" +:+ "E2-T1" +:+ "] " +:+ "Node runtime skeleton")
            body "task,epic-2,node-runtime,connectors")
    /\ issue_cmd follow_up_task "Epic 2 - Node Runtime & Connectors" sample_info
       = Ok (gh_issue_create
               ("[" +:+ "E2-T1" +:+ "] " +:+ "Node runtime skeleton")
               (body +:+ nl)
               (join "," (issue_labels "Epic 2 - Node Runtime & Connectors"))).
Proof.
  apply (follow_up_issue_matches follow_up_task "E2-T1" "Node runtime skeleton"
           "Create .NET Worker Service with gRPC client implementation.").
  - vm_compute. reflexivity.
  - vm_compute. reflexivity.
  - vm_compute. reflexivity.
  - vm_compute. reflexivity.
  - vm_compute. reflexivity.
Defined.
